(** * Object-storage helpers of [api/storage.py]

    A shallow embedding of the storage module: the configuration read from
    the environment, the key builder, and the wrappers around the remote
    object-store client, together with the properties the design note
    states about them.

    Python [str] values are modelled as [string] (a sequence of bytes).  The
    only characters the module inspects are ASCII ("/" and [os.sep]), and an
    ASCII byte never occurs inside a multi-byte UTF-8 sequence, so replacing
    and stripping them byte-wise agrees with doing so on code points. *)

From Stdlib Require Import Ascii ZArith Bool.
From stdpp Require Import gmap strings list.

(** ** Python string primitives used by the module *)

Module Py.

(** Truth value of a [str]: the empty string is falsy. *)
Definition truthy (s : string) : bool :=
  match s with EmptyString => false | String _ _ => true end.

(** [a or b] on strings. *)
Definition or_else (a b : string) : string := if truthy a then a else b.

(** [s.replace(old, new)] for one-character [old] and [new]. *)
Fixpoint replace (old new : ascii) (s : string) : string :=
  match s with
  | EmptyString => EmptyString
  | String a t =>
      String (if Ascii.eqb a old then new else a) (replace old new t)
  end.

Fixpoint lstrip (c : ascii) (s : string) : string :=
  match s with
  | EmptyString => EmptyString
  | String a t => if Ascii.eqb a c then lstrip c t else s
  end.

Fixpoint rstrip (c : ascii) (s : string) : string :=
  match s with
  | EmptyString => EmptyString
  | String a t =>
      match rstrip c t with
      | EmptyString => if Ascii.eqb a c then EmptyString else String a EmptyString
      | r => String a r
      end
  end.

(** [s.strip(c)] for a one-character set [c]. *)
Definition strip (c : ascii) (s : string) : string := lstrip c (rstrip c s).

(** [sep.join(parts)]. *)
Fixpoint join (sep : string) (parts : list string) : string :=
  match parts with
  | [] => EmptyString
  | [p] => p
  | p :: rest => p +:+ sep +:+ join sep rest
  end.

(** [s.split(c)]: always at least one piece. *)
Fixpoint split (c : ascii) (s : string) : list string :=
  match s with
  | EmptyString => [EmptyString]
  | String a t =>
      if Ascii.eqb a c then EmptyString :: split c t
      else match split c t with
           | h :: r => String a h :: r
           | [] => [String a EmptyString]
           end
  end.

(** ASCII part of [s.lower()]; other bytes are left alone. *)
Definition lower_char (a : ascii) : ascii :=
  let n := nat_of_ascii a in
  if (65 <=? n)%nat && (n <=? 90)%nat then ascii_of_nat (n + 32) else a.

Fixpoint lower (s : string) : string :=
  match s with
  | EmptyString => EmptyString
  | String a t => String (lower_char a) (lower t)
  end.

Definition startswith (c : ascii) (s : string) : bool :=
  match s with
  | EmptyString => false
  | String a _ => Ascii.eqb a c
  end.

Fixpoint endswith (c : ascii) (s : string) : bool :=
  match s with
  | EmptyString => false
  | String a EmptyString => Ascii.eqb a c
  | String _ t => endswith c t
  end.

(** Every character of [s] is [c] (true of the empty string). *)
Fixpoint all_char (c : ascii) (s : string) : bool :=
  match s with
  | EmptyString => true
  | String a t => Ascii.eqb a c && all_char c t
  end.

(** Two adjacent occurrences of [c] somewhere in [s]. *)
Fixpoint has_adjacent (c : ascii) (s : string) : bool :=
  match s with
  | EmptyString => false
  | String a t => (Ascii.eqb a c && startswith c t) || has_adjacent c t
  end.

End Py.

(** ** Configuration

    The module-level constants of lines 13 to 18, read once from the
    environment.  [os_sep] is the platform's path separator ([os.sep]). *)

Record Config := {
  os_sep : ascii;
  STORAGE_BACKEND : string;
  S3_ENABLED_ENV : bool;
  S3_BUCKET : option string;
  S3_PREFIX : string;
  S3_ENDPOINT_URL : option string;
  S3_REGION : option string
}.

(** [os.environ.get(name, default)]. *)
Definition environ_get (environ : gmap string string) (name default : string)
  : string := from_option id default (environ !! name).

(** [x in ["1", "true", "yes"]]. *)
Definition is_truthy_flag (x : string) : bool :=
  bool_decide (x ∈ ["1"; "true"; "yes"]).

Definition load_config (sep : ascii) (environ : gmap string string) : Config :=
  {| os_sep := sep;
     STORAGE_BACKEND :=
       Py.lower (environ_get environ "DEEPWIKI_STORAGE_BACKEND" "local");
     S3_ENABLED_ENV :=
       is_truthy_flag (Py.lower (environ_get environ "DEEPWIKI_S3_ENABLED" ""));
     S3_BUCKET := environ !! "DEEPWIKI_S3_BUCKET";
     S3_PREFIX := environ_get environ "DEEPWIKI_S3_PREFIX" "deepwiki";
     S3_ENDPOINT_URL := environ !! "DEEPWIKI_S3_ENDPOINT_URL";
     S3_REGION :=
       match environ !! "AWS_REGION" with
       | Some r => if Py.truthy r then Some r else environ !! "AWS_DEFAULT_REGION"
       | None => environ !! "AWS_DEFAULT_REGION"
       end |}.

(** [bool(S3_BUCKET)]: [None] and the empty string are both falsy. *)
Definition bucket_set (cfg : Config) : bool :=
  match S3_BUCKET cfg with
  | Some b => Py.truthy b
  | None => false
  end.

Definition s3_enabled (cfg : Config) : bool :=
  bucket_set cfg
  && (bool_decide (STORAGE_BACKEND cfg = "s3") || S3_ENABLED_ENV cfg).

(** ** The key builder *)

(** One iteration of the loop of [build_s3_key] (lines 27 to 32). *)
Definition build_s3_key_step (cfg : Config) (cleaned_parts : list string)
    (part : string) : list string :=
  if negb (Py.truthy part) then cleaned_parts
  else
    let normalized := Py.strip "/" (Py.replace (os_sep cfg) "/" part) in
    if Py.truthy normalized then cleaned_parts ++ [normalized]
    else cleaned_parts.

Definition build_s3_key (cfg : Config) (parts : list string) : string :=
  let cleaned_parts := fold_left (build_s3_key_step cfg) parts [] in
  let key := Py.join "/" cleaned_parts in
  let prefix := Py.strip "/" (Py.or_else (S3_PREFIX cfg) "") in
  if Py.truthy prefix then
    if Py.truthy key then prefix +:+ "/" +:+ key else prefix
  else key.

(** A key "contains an empty segment" when splitting it at "/" yields an
    empty piece. *)
Definition has_empty_segment (key : string) : bool :=
  existsb (fun seg => negb (Py.truthy seg)) (Py.split "/" key).

(** ** Exceptions, log records and client calls *)

(** The exceptions the module distinguishes: [botocore]'s [ClientError],
    carrying [exc.response.get("Error", {}).get("Code")], and every other
    subclass of [Exception] (connection failures, [OSError], [KeyError],
    decoding errors, ...), identified by its class name. *)
Inductive Exn :=
| ClientError (code : option string)
| OtherError (name : string).

(** [code in ["404", "NoSuchKey", "NotFound"]]. *)
Definition is_not_found (code : option string) : bool :=
  match code with
  | Some c => bool_decide (c ∈ ["404"; "NoSuchKey"; "NotFound"])
  | None => false
  end.

Inductive Outcome (A : Type) :=
| Returned (a : A)
| Raised (e : Exn).
Arguments Returned {A} a.
Arguments Raised {A} e.

Inductive Level := DEBUG | INFO | WARNING | ERROR.

(** A record handed to the module's logger: level, format string and the
    two arguments every call site passes (the key and the exception). *)
Record LogRecord := {
  levelname : Level;
  msg : string;
  log_key : string;
  log_exc : Exn
}.

(** Method calls made on the remote client, as a mock client would record
    them.  The bucket argument is [S3_BUCKET] as configured. *)
Inductive Call :=
| HeadObject (bucket : option string) (key : string)
| GetObject (bucket : option string) (key : string)
| PutObject (bucket : option string) (key body : string)
| DownloadFile (bucket : option string) (key filename : string)
| UploadFile (filename : string) (bucket : option string) (key : string)
| DeleteObject (bucket : option string) (key : string)
| Paginate (bucket : option string) (prefix : string).

(** ** Listing entries *)

(** [datetime], as microseconds since the epoch. *)
Inductive datetime := Datetime (micros : Z).

(** One element of a page's ["Contents"], with the members the code reads. *)
Record RawEntry := {
  Key : option string;
  LastModified : option datetime;
  Size : option Z
}.

(** One page of a listing; ["Contents"] is missing on an empty page. *)
Record Page := { Contents : option (list RawEntry) }.

(** The dictionaries [s3_list_objects] returns. *)
Record Item := {
  item_key : string;
  item_last_modified : option datetime;
  item_size : Z
}.

(** ** The remote client

    What [_s3_client()] offers, over a service state [R] the module never
    inspects.  Each method returns the outcome of the call and the new
    service state; an outcome [Raised] also stands for a failure to build
    the client, which [_s3_client()] raises from the same expression.
    [download_object] and [upload_object] are the remote halves of
    [download_file] and [upload_file]; [paginate] gives the pages the
    paginator yields and the exception, if any, that ends the iteration. *)
Class S3Client (R : Type) := {
  head_object : option string → string → R → Outcome unit * R;
  get_object : option string → string → R → Outcome string * R;
  put_object : option string → string → string → R → Outcome unit * R;
  download_object : option string → string → R → Outcome string * R;
  upload_object : option string → string → string → R → Outcome unit * R;
  delete_object : option string → string → R → Outcome unit * R;
  paginate : option string → string → R → (list Page * option Exn) * R
}.

(** [json.loads] of the decoded body and [json.dumps(..., ensure_ascii=True)]
    followed by the encoding, over a document type [J]; both may raise. *)
Class JsonCodec (J : Type) := {
  json_loads : string → Outcome J;
  json_dumps : J → Outcome string
}.

(** ** The local filesystem

    Paths are looked up literally (no normalisation, no links).  Path
    functions follow [posixpath] with the platform separator. *)
Inductive Node :=
| File (content : string)
| Dir.

Module OsPath.

(** [p[:p.rfind(sep) + 1]]. *)
Fixpoint head_part (sep : ascii) (p : string) : string :=
  match p with
  | EmptyString => EmptyString
  | String a t =>
      match head_part sep t with
      | EmptyString => if Ascii.eqb a sep then String a EmptyString else EmptyString
      | r => String a r
      end
  end.

Definition dirname (sep : ascii) (p : string) : string :=
  let head := head_part sep p in
  if Py.truthy head && Py.truthy (Py.lstrip sep head)
  then Py.rstrip sep head else head.

Definition exists_ (fs : gmap string Node) (p : string) : bool :=
  match fs !! p with Some _ => true | None => false end.

Definition isdir (fs : gmap string Node) (p : string) : bool :=
  match fs !! p with Some Dir => true | _ => false end.

Definition isfile (fs : gmap string Node) (p : string) : bool :=
  match fs !! p with Some (File _) => true | _ => false end.

(** The chain of proper ancestors of [p], outermost first. *)
Fixpoint ancestors_upto (n : nat) (sep : ascii) (p : string) : list string :=
  match n with
  | O => []
  | S n' =>
      let d := dirname sep p in
      if Py.truthy d && negb (String.eqb d p)
      then ancestors_upto n' sep d ++ [d] else []
  end.

Definition ancestors (sep : ascii) (p : string) : list string :=
  ancestors_upto (String.length p) sep p.

End OsPath.

(** [os.makedirs(name, exist_ok=True)]: fails on the empty name and when
    [name] or one of its ancestors is a regular file; otherwise [name] and
    its missing ancestors become directories. *)
Definition os_makedirs (sep : ascii) (name : string) (fs : gmap string Node)
  : Outcome (gmap string Node) :=
  if negb (Py.truthy name) then Raised (OtherError "FileNotFoundError")
  else if OsPath.isdir fs name then Returned fs
  else if OsPath.isfile fs name then Raised (OtherError "FileExistsError")
  else if existsb (OsPath.isfile fs) (OsPath.ancestors sep name)
  then Raised (OtherError "NotADirectoryError")
  else Returned (<[name := Dir]>
                   (foldr (λ d m, <[d := Dir]> m) fs (OsPath.ancestors sep name))).

(** Writing the downloaded bytes to [filename]. *)
Definition write_file (sep : ascii) (filename content : string)
    (fs : gmap string Node) : Outcome (gmap string Node) :=
  if OsPath.isdir fs filename then Raised (OtherError "IsADirectoryError")
  else
    let d := OsPath.dirname sep filename in
    if negb (Py.truthy d) || OsPath.isdir fs d
    then Returned (<[filename := File content]> fs)
    else Raised (OtherError "FileNotFoundError").

(** Reading the file to upload. *)
Definition read_file (filename : string) (fs : gmap string Node)
  : Outcome string :=
  match fs !! filename with
  | Some (File content) => Returned content
  | Some Dir => Raised (OtherError "IsADirectoryError")
  | None => Raised (OtherError "FileNotFoundError")
  end.

(** ** The world and the monad of the wrappers

    Everything a call can observe or change: the local filesystem, the
    state of the remote service, the records logged so far and the calls
    made on the client so far.  A computation returns or raises, and keeps
    its effects either way. *)
Record World (R : Type) := mkWorld {
  fs : gmap string Node;
  remote : R;
  log : list LogRecord;
  calls : list Call
}.
Arguments mkWorld {R} _ _ _ _.
Arguments fs {R} _.
Arguments remote {R} _.
Arguments log {R} _.
Arguments calls {R} _.

Definition M (R A : Type) : Type := World R → Outcome A * World R.

Global Instance M_ret {R} : MRet (M R) := λ A a w, (Returned a, w).

Global Instance M_bind {R} : MBind (M R) := λ A B f m w,
  match m w with
  | (Returned a, w') => f a w'
  | (Raised e, w') => (Raised e, w')
  end.

Definition raise {R A} (e : Exn) : M R A := λ w, (Raised e, w).

(** [try: body except ...]: [handler] answers [None] for an exception that
    no [except] clause matches, which then propagates. *)
Definition try_except {R A} (body : M R A) (handler : Exn → option (M R A))
  : M R A := λ w,
  match body w with
  | (Returned a, w') => (Returned a, w')
  | (Raised e, w') =>
      match handler e with
      | Some h => h w'
      | None => (Raised e, w')
      end
  end.

Section Storage.

Context {R : Type} `{!S3Client R} {J : Type} `{!JsonCodec J}.
Variable cfg : Config.

(** [logger.error(fmt, key, exc)]. *)
Definition logger_error (fmt key : string) (exc : Exn) : M R unit := λ w,
  (Returned (),
   mkWorld (fs w) (remote w)
     (log w ++ [{| levelname := ERROR; msg := fmt;
                   log_key := key; log_exc := exc |}])
     (calls w)).

(** A call of a client method: recorded, then answered by the service. *)
Definition client_call {A} (c : Call) (method : R → Outcome A * R)
  : M R A := λ w,
  let '(r, s) := method (remote w) in
  (r, mkWorld (fs w) s (log w) (calls w ++ [c])).

Definition os_path_exists (p : string) : M R bool := λ w,
  (Returned (OsPath.exists_ (fs w) p), w).

(** A filesystem operation that may raise. *)
Definition fs_update (op : gmap string Node → Outcome (gmap string Node))
  : M R unit := λ w,
  match op (fs w) with
  | Returned fs' => (Returned (), mkWorld fs' (remote w) (log w) (calls w))
  | Raised e => (Raised e, w)
  end.

Definition fs_read (filename : string) : M R string := λ w,
  (read_file filename (fs w), w).

(** [client.download_file(bucket, key, filename)]: fetch, then write. *)
Definition client_download_file (key filename : string) : M R unit :=
  content ← client_call (DownloadFile (S3_BUCKET cfg) key filename)
              (download_object (S3_BUCKET cfg) key);
  fs_update (write_file (os_sep cfg) filename content).

(** [client.upload_file(filename, bucket, key)]: read, then send. *)
Definition client_upload_file (filename key : string) : M R unit := λ w,
  let w1 := mkWorld (fs w) (remote w) (log w)
              (calls w ++ [UploadFile filename (S3_BUCKET cfg) key]) in
  match read_file filename (fs w) with
  | Raised e => (Raised e, w1)
  | Returned content =>
      let '(r, s) := upload_object (S3_BUCKET cfg) key content (remote w) in
      (r, mkWorld (fs w1) s (log w1) (calls w1))
  end.

Definition lift {A} (o : Outcome A) : M R A := λ w, (o, w).

(** Lines 45 to 55. *)
Definition s3_object_exists (key : string) : M R bool :=
  if negb (s3_enabled cfg) then mret false
  else
    try_except
      (client_call (HeadObject (S3_BUCKET cfg) key)
         (head_object (S3_BUCKET cfg) key);;
       mret true)
      (λ exc,
         match exc with
         | ClientError code =>
             Some (if is_not_found code then mret false
                   else logger_error "S3 head_object failed for %s: %s" key exc;;
                        mret false)
         | OtherError _ => None
         end).

(** Lines 58 to 72. *)
Definition s3_read_json (key : string) : M R (option J) :=
  if negb (s3_enabled cfg) then mret None
  else
    try_except
      (payload ← client_call (GetObject (S3_BUCKET cfg) key)
                   (get_object (S3_BUCKET cfg) key);
       doc ← lift (json_loads payload);
       mret (Some doc))
      (λ exc,
         match exc with
         | ClientError code =>
             Some (if is_not_found code then mret None
                   else logger_error "S3 get_object failed for %s: %s" key exc;;
                        mret None)
         | OtherError _ =>
             Some (logger_error "S3 read_json failed for %s: %s" key exc;;
                   mret None)
         end).

(** Lines 75 to 84. *)
Definition s3_write_json (key : string) (data : J) : M R bool :=
  if negb (s3_enabled cfg) then mret false
  else
    try_except
      (payload ← lift (json_dumps data);
       client_call (PutObject (S3_BUCKET cfg) key payload)
         (put_object (S3_BUCKET cfg) key payload);;
       mret true)
      (λ exc,
         Some (logger_error "S3 write_json failed for %s: %s" key exc;;
               mret false)).

(** Lines 87 to 101. *)
Definition s3_download_file (key local_path : string) : M R bool :=
  if negb (s3_enabled cfg) then mret false
  else
    try_except
      (fs_update (os_makedirs (os_sep cfg)
                    (OsPath.dirname (os_sep cfg) local_path));;
       client_download_file key local_path;;
       mret true)
      (λ exc,
         match exc with
         | ClientError code =>
             Some (if is_not_found code then mret false
                   else logger_error "S3 download_file failed for %s: %s" key exc;;
                        mret false)
         | OtherError _ =>
             Some (logger_error "S3 download_file failed for %s: %s" key exc;;
                   mret false)
         end).

(** Lines 104 to 114. *)
Definition s3_upload_file (local_path key : string) : M R bool :=
  if negb (s3_enabled cfg) then mret false
  else
    present ← os_path_exists local_path;
    if negb present then mret false
    else
      try_except
        (client_upload_file local_path key;;
         mret true)
        (λ exc,
           Some (logger_error "S3 upload_file failed for %s: %s" key exc;;
                 mret false)).

(** Lines 117 to 125. *)
Definition s3_delete_object (key : string) : M R bool :=
  if negb (s3_enabled cfg) then mret false
  else
    try_except
      (client_call (DeleteObject (S3_BUCKET cfg) key)
         (delete_object (S3_BUCKET cfg) key);;
       mret true)
      (λ exc,
         Some (logger_error "S3 delete_object failed for %s: %s" key exc;;
               mret false)).

(** The dictionary built for one entry (lines 137 to 141); [entry["Key"]]
    raises [KeyError] when the member is missing. *)
Definition make_item (entry : RawEntry) : Outcome Item :=
  match Key entry with
  | None => Raised (OtherError "KeyError")
  | Some k =>
      Returned {| item_key := k;
                  item_last_modified := LastModified entry;
                  item_size := from_option id 0%Z (Size entry) |}
  end.

(** The inner loop (lines 135 to 142) over one page's entries. *)
Fixpoint append_entries (items : list Item) (entries : list RawEntry)
  : Outcome (list Item) :=
  match entries with
  | [] => Returned items
  | entry :: rest =>
      match make_item entry with
      | Returned it => append_entries (items ++ [it]) rest
      | Raised e => Raised e
      end
  end.

(** The outer loop (line 134) over the pages the paginator yields. *)
Fixpoint append_pages (items : list Item) (pages : list Page)
  : Outcome (list Item) :=
  match pages with
  | [] => Returned items
  | page :: rest =>
      match append_entries items (from_option id [] (Contents page)) with
      | Returned items' => append_pages items' rest
      | Raised e => Raised e
      end
  end.

(** Lines 128 to 143.  The pages come one at a time: those yielded are
    processed in order, and the exception that ends the iteration, if
    any, is raised after them. *)
Definition s3_list_objects (prefix : string) : M R (list Item) :=
  if negb (s3_enabled cfg) then mret []
  else
    λ w,
      let '((pages, failure), s) := paginate (S3_BUCKET cfg) prefix (remote w) in
      let w' := mkWorld (fs w) s (log w)
                  (calls w ++ [Paginate (S3_BUCKET cfg) prefix]) in
      match append_pages [] pages with
      | Raised e => (Raised e, w')
      | Returned items =>
          match failure with
          | Some e => (Raised e, w')
          | None => (Returned items, w')
          end
      end.

(** Lines 146 to 153. *)
Definition ensure_local_file (local_path key : string) : M R bool :=
  present ← os_path_exists local_path;
  if (present : bool) then mret true
  else if negb (s3_enabled cfg) then mret false
  else
    found ← s3_object_exists key;
    if negb found then mret false
    else s3_download_file key local_path.

End Storage.

(** Lines 156 to 162.  [to_millis] stands for [int(value.timestamp() * 1000)],
    a floating-point computation that may raise; a [datetime] is always
    truthy. *)
Definition parse_s3_last_modified (to_millis : datetime → Outcome Z)
    (value : option datetime) : Outcome (option Z) :=
  match value with
  | None => Returned None
  | Some v =>
      match to_millis v with
      | Returned n => Returned (Some n)
      | Raised _ => Returned None
      end
  end.

(** The world after a call [c] that left the service in state [s]. *)
Definition after_call {R} (w : World R) (c : Call) (s : R) : World R :=
  mkWorld (fs w) s (log w) (calls w ++ [c]).

(** The world after one more error record. *)
Definition after_error {R} (w : World R) (fmt key : string) (e : Exn)
  : World R :=
  mkWorld (fs w) (remote w)
    (log w ++ [{| levelname := ERROR; msg := fmt; log_key := key;
                  log_exc := e |}])
    (calls w).

(** The world after the filesystem became [tree]. *)
Definition with_fs {R} (w : World R) (tree : gmap string Node) : World R :=
  mkWorld tree (remote w) (log w) (calls w).

(** The entries of a page, and of a run of pages in page order. *)
Definition entries_of (page : Page) : list RawEntry :=
  from_option id [] (Contents page).

Definition listed (pages : list Page) : list RawEntry :=
  concat (map entries_of pages).

(** An item carries its entry's key, last-modified time and size (0 when
    the entry has none). *)
Definition item_matches (entry : RawEntry) (it : Item) : Prop :=
  Key entry = Some (item_key it)
  ∧ item_last_modified it = LastModified entry
  ∧ item_size it = from_option id 0%Z (Size entry).

(** A computation that comes back with a value. *)
Definition returns {R A} (x : Outcome A * World R) : Prop :=
  ∃ a w', x = (Returned a, w').

(** ** An in-memory client

    A bucket held in a finite map, with an optional fault that every call
    raises, used to run the wrappers on concrete inputs. *)
Module Mock.

Record Bucket := {
  objects : gmap string string;
  fault : option Exn
}.

Definition answer {A} (s : Bucket) (ok : Outcome A * Bucket)
  : Outcome A * Bucket :=
  match fault s with
  | Some e => (Raised e, s)
  | None => ok
  end.

Definition fetch (missing : string) (key : string) (s : Bucket)
  : Outcome string * Bucket :=
  answer s
    match objects s !! key with
    | Some body => (Returned body, s)
    | None => (Raised (ClientError (Some missing)), s)
    end.

Definition store (key body : string) (s : Bucket) : Outcome unit * Bucket :=
  answer s
    (Returned (), {| objects := <[key := body]> (objects s); fault := None |}).

Definition entry_of (kv : string * string) : RawEntry :=
  {| Key := Some kv.1; LastModified := None;
     Size := Some (Z.of_nat (String.length kv.2)) |}.

(** Pages of two entries. *)
Fixpoint pages_of (entries : list RawEntry) : list Page :=
  match entries with
  | [] => []
  | [e] => [{| Contents := Some [e] |}]
  | e1 :: e2 :: rest => {| Contents := Some [e1; e2] |} :: pages_of rest
  end.

Definition listing (prefix : string) (s : Bucket) : list Page :=
  pages_of
    (map entry_of
       (List.filter (λ kv, String.prefix prefix kv.1)
          (map_to_list (objects s)))).

Global Instance client : S3Client Bucket := {|
  head_object _ key s :=
    answer s
      (if bool_decide (is_Some (objects s !! key)) then (Returned (), s)
       else (Raised (ClientError (Some "404")), s));
  get_object _ key s := fetch "NoSuchKey" key s;
  put_object _ key body s := store key body s;
  download_object _ key s := fetch "404" key s;
  upload_object _ key body s := store key body s;
  delete_object _ key s :=
    answer s
      (Returned (), {| objects := delete key (objects s); fault := None |});
  paginate _ prefix s :=
    match fault s with
    | Some e => (([], Some e), s)
    | None => ((listing prefix s, None), s)
    end
|}.

(** Documents are kept as their text; the empty text does not parse. *)
Global Instance codec : JsonCodec string := {|
  json_loads s :=
    if Py.truthy s then Returned s else Raised (OtherError "JSONDecodeError");
  json_dumps d := Returned d
|}.

Definition bucket (kvs : list (string * string)) (f : option Exn) : Bucket :=
  {| objects := list_to_map kvs; fault := f |}.

Definition world (files : list (string * Node)) (kvs : list (string * string))
    (f : option Exn) : World Bucket :=
  mkWorld (list_to_map files) (bucket kvs f) [] [].

End Mock.

(** The configuration of a POSIX host with nothing set in the environment
    but the bucket and the backend. *)
Definition cfg_s3 : Config :=
  load_config "/" (list_to_map [("DEEPWIKI_S3_BUCKET", "wiki-bucket");
                                 ("DEEPWIKI_STORAGE_BACKEND", "S3")]).

Definition cfg_local : Config := load_config "/" ∅.

(** The same host with a prefix made of slashes only. *)
Definition cfg_bare : Config :=
  load_config "/" (list_to_map [("DEEPWIKI_S3_BUCKET", "wiki-bucket");
                                 ("DEEPWIKI_S3_ENABLED", "Yes");
                                 ("DEEPWIKI_S3_PREFIX", "//")]).

(** Worlds used below: a bucket holding one document, reachable or not,
    and local trees with and without a cached copy. *)
Definition w_fresh : World Mock.Bucket :=
  Mock.world [] [("deepwiki/a", "{}")] None.

Definition w_cached : World Mock.Bucket :=
  Mock.world [("/srv/cache", Dir); ("/srv/cache/a.json", File "{}")]
    [("deepwiki/a", "{}")] None.

Definition w_down : World Mock.Bucket :=
  Mock.world [] [("deepwiki/a", "{}")]
    (Some (OtherError "EndpointConnectionError")).

Definition w_denied : World Mock.Bucket :=
  Mock.world [] [("deepwiki/a", "{}")] (Some (ClientError (Some "AccessDenied"))).

(** A tree in which "/data" is a regular file. *)
Definition w_blocked : World Mock.Bucket :=
  Mock.world [("/data", File "")] [] None.

Definition w_listing : World Mock.Bucket :=
  Mock.world [] [("deepwiki/a", "x"); ("deepwiki/b", "yy");
                 ("other/c", "z"); ("deepwiki/d", "")] None.

(** What [build_s3_key] computes, written without the loop: every part is
    cleaned, the parts left empty are dropped. *)
Definition clean_part (cfg : Config) (part : string) : string :=
  Py.strip "/" (Py.replace (os_sep cfg) "/" part).

Definition cleaned (cfg : Config) (parts : list string) : list string :=
  List.filter Py.truthy (map (clean_part cfg) parts).

Definition with_prefix (prefix key : string) : string :=
  if Py.truthy prefix then
    if Py.truthy key then prefix +:+ "/" +:+ key else prefix
  else key.

(** A string is tidy when it is not empty and neither starts nor ends
    with a slash. *)
Definition tidy (s : string) : Prop :=
  Py.truthy s = true ∧ Py.startswith "/" s = false ∧ Py.endswith "/" s = false.

(** ** The memoised client

    [_s3_client] is wrapped in [lru_cache(maxsize=1)] and takes no argument:
    the first call that returns stores its result, later calls hand it out
    again, and a call that raises stores nothing.  [boto3_client] stands for
    [boto3.client("s3", endpoint_url=..., region_name=...)] over a state [F]
    of whatever it depends on. *)
Class Boto3 (H F : Type) := {
  boto3_client : option string → option string → F → Outcome H * F
}.

Record ClientCache (H F : Type) := mkCache {
  cache : option H;
  factory : F
}.
Arguments mkCache {H F} _ _.
Arguments cache {H F} _.
Arguments factory {H F} _.

(** Lines 40 to 42. *)
Definition _s3_client {H F} `{!Boto3 H F} (cfg : Config)
    (st : ClientCache H F) : Outcome H * ClientCache H F :=
  match cache st with
  | Some handle => (Returned handle, st)
  | None =>
      let '(r, f) :=
        boto3_client (S3_ENDPOINT_URL cfg) (S3_REGION cfg) (factory st) in
      match r with
      | Returned handle => (Returned handle, mkCache (Some handle) f)
      | Raised e => (Raised e, mkCache None f)
      end
  end.

(** [n] calls of [_s3_client] in a row. *)
Fixpoint call_times {H F} `{!Boto3 H F} (cfg : Config) (n : nat)
    (st : ClientCache H F) : list (Outcome H) * ClientCache H F :=
  match n with
  | O => ([], st)
  | S n' =>
      let '(r, st1) := _s3_client cfg st in
      let '(rs, st2) := call_times cfg n' st1 in
      (r :: rs, st2)
  end.

(** A factory that fails a given number of times before it hands out
    handles numbered from 0. *)
Module Flaky.

Record State := { failures_left : nat; built : nat }.

Global Instance factory : Boto3 nat State := {|
  boto3_client _ _ f :=
    match failures_left f with
    | O => (Returned (built f), {| failures_left := 0; built := S (built f) |})
    | S k => (Raised (OtherError "NoRegionError"),
              {| failures_left := k; built := built f |})
    end
|}.

End Flaky.

(** ** Notions used to state the properties *)

(** [c in s]. *)
Fixpoint contains (c : ascii) (s : string) : bool :=
  match s with
  | EmptyString => false
  | String a t => Ascii.eqb a c || contains c t
  end.

(** The bucket a recorded call was made on. *)
Definition call_bucket (c : Call) : option string :=
  match c with
  | HeadObject b _ | GetObject b _ | PutObject b _ _ | DownloadFile b _ _
  | UploadFile _ b _ | DeleteObject b _ | Paginate b _ => b
  end.

(** What a run added to the trace of calls and to the log. *)
Definition calls_added {R} (w w' : World R) (added : list Call) : Prop :=
  calls w' = calls w ++ added.

Definition log_added {R} (w w' : World R) (added : list LogRecord) : Prop :=
  log w' = log w ++ added.

(** An error record about [key]. *)
Definition error_about (key : string) (r : LogRecord) : Prop :=
  levelname r = ERROR ∧ log_key r = key.

(** A service that gives back what was put, and a codec that reads back
    what it wrote. *)
Definition keeps_objects {R} `{!S3Client R} : Prop :=
  ∀ bucket key body r r',
    put_object bucket key body r = (Returned (), r') →
    ∃ r'', get_object bucket key r' = (Returned body, r'').

Definition reads_back {J} `{!JsonCodec J} (doc : J) : Prop :=
  ∀ payload, json_dumps doc = Returned payload →
             json_loads payload = Returned doc.

(** The configuration [cfg] with another key prefix. *)
Definition set_prefix (cfg : Config) (prefix : string) : Config :=
  {| os_sep := os_sep cfg;
     STORAGE_BACKEND := STORAGE_BACKEND cfg;
     S3_ENABLED_ENV := S3_ENABLED_ENV cfg;
     S3_BUCKET := S3_BUCKET cfg;
     S3_PREFIX := prefix;
     S3_ENDPOINT_URL := S3_ENDPOINT_URL cfg;
     S3_REGION := S3_REGION cfg |}.

(** A segment with nothing to clean: not empty, no slash and no platform
    separator in it. *)
Definition plain_segment (cfg : Config) (p : string) : Prop :=
  Py.truthy p = true ∧ contains "/" p = false
  ∧ contains (os_sep cfg) p = false.

(** A run added at most [n] calls, all on the configured bucket. *)
Definition calls_at_most (cfg : Config) {R} (n : nat) (w w' : World R)
  : Prop :=
  ∃ added, calls_added w w' added ∧ length added ≤ n
           ∧ Forall (λ c, call_bucket c = S3_BUCKET cfg) added.

(** A run logged at most one record, an error about [key], and none when
    [success] holds. *)
Definition logs_at_most_one {R} (key : string) (w w' : World R)
    (success : Prop) : Prop :=
  ∃ added, log_added w w' added ∧ length added ≤ 1
           ∧ Forall (error_about key) added
           ∧ (success → added = []).

(** An environment that selects the remote store through the flag only. *)
Definition environ_flag : gmap string string :=
  list_to_map [("DEEPWIKI_S3_BUCKET", "wiki-bucket");
               ("DEEPWIKI_S3_ENABLED", "TRUE")].

(** Three pages of a listing: one entry, no "Contents", and an entry
    without a key. *)
Definition pages_with_gap : list Page :=
  [ {| Contents := Some [ {| Key := Some "deepwiki/a"; LastModified := None;
                             Size := Some 2%Z |} ] |};
    {| Contents := None |};
    {| Contents := Some [ {| Key := None; LastModified := None;
                             Size := None |} ] |} ].

(** A client whose listing is scripted and whose other calls all fail. *)
Module Scripted.

Record Script := { script_pages : list Page; script_failure : option Exn }.

Definition refuse {A} (s : Script) : Outcome A * Script :=
  (Raised (ClientError (Some "AccessDenied")), s).

Global Instance client : S3Client Script := {|
  head_object _ _ s := refuse s;
  get_object _ _ s := refuse s;
  put_object _ _ _ s := refuse s;
  download_object _ _ s := refuse s;
  upload_object _ _ _ s := refuse s;
  delete_object _ _ s := refuse s;
  paginate _ _ s := ((script_pages s, script_failure s), s)
|}.

Definition world (pages : list Page) (failure : option Exn) : World Script :=
  mkWorld ∅ {| script_pages := pages; script_failure := failure |} [] [].

End Scripted.

(** A service that sends back the file last uploaded under a key. *)
Definition keeps_uploads {R} `{!S3Client R} : Prop :=
  ∀ bucket key content r r',
    upload_object bucket key content r = (Returned (), r') →
    ∃ r'', download_object bucket key r' = (Returned content, r'').

(** * Properties *)

(** ** Strings *)

Section StringFacts.

Variable c : ascii.

Lemma truthy_app a b : Py.truthy (a +:+ b) = Py.truthy a || Py.truthy b.
Proof. destruct a; reflexivity. Qed.

Lemma startswith_app a b :
  Py.startswith c (a +:+ b) =
  if Py.truthy a then Py.startswith c a else Py.startswith c b.
Proof. destruct a; reflexivity. Qed.

Lemma endswith_app a b :
  Py.endswith c (a +:+ b) =
  if Py.truthy b then Py.endswith c b else Py.endswith c a.
Proof.
  induction a as [|x a IH]; simpl.
  - destruct b; reflexivity.
  - rewrite IH. destruct a; simpl; [|reflexivity].
    destruct b; reflexivity.
Qed.

Lemma has_adjacent_app a b :
  Py.has_adjacent c (a +:+ b) =
  Py.has_adjacent c a || (Py.endswith c a && Py.startswith c b)
  || Py.has_adjacent c b.
Proof.
  induction a as [|x a IH]; simpl; [reflexivity|].
  rewrite IH, startswith_app.
  destruct a as [|y a]; simpl.
  - destruct (Ascii.eqb x c), (Py.startswith c b), (Py.has_adjacent c b);
      reflexivity.
  - destruct (Ascii.eqb x c), (Ascii.eqb y c); simpl; try reflexivity;
      destruct (Py.has_adjacent c a); reflexivity.
Qed.

Lemma lstrip_startswith s : Py.startswith c (Py.lstrip c s) = false.
Proof.
  induction s as [|x s IH]; simpl; [reflexivity|].
  destruct (Ascii.eqb x c) eqn:E; [exact IH|]. simpl. exact E.
Qed.

Lemma rstrip_endswith s : Py.endswith c (Py.rstrip c s) = false.
Proof.
  induction s as [|x s IH]; simpl; [reflexivity|].
  destruct (Py.rstrip c s) as [|y r] eqn:E.
  - destruct (Ascii.eqb x c) eqn:Ex; simpl; [reflexivity|exact Ex].
  - exact IH.
Qed.

Lemma lstrip_endswith s :
  Py.endswith c s = false → Py.endswith c (Py.lstrip c s) = false.
Proof.
  induction s as [|x s IH]; [reflexivity|].
  intros H. cbn [Py.lstrip]. destruct (Ascii.eqb x c) eqn:E; [|exact H].
  apply IH. destruct s; [reflexivity|exact H].
Qed.

Lemma lstrip_has_adjacent s :
  Py.has_adjacent c s = false → Py.has_adjacent c (Py.lstrip c s) = false.
Proof.
  induction s as [|x s IH]; simpl; [reflexivity|].
  intros H. apply orb_false_iff in H as [H1 H2].
  destruct (Ascii.eqb x c) eqn:E; [auto|].
  simpl. rewrite E, H2. reflexivity.
Qed.

Lemma rstrip_startswith s :
  Py.startswith c (Py.rstrip c s) = true → Py.startswith c s = true.
Proof.
  destruct s as [|x s]; simpl; [congruence|].
  destruct (Py.rstrip c s); [destruct (Ascii.eqb x c) eqn:E|]; simpl;
    congruence.
Qed.

Lemma rstrip_has_adjacent s :
  Py.has_adjacent c s = false → Py.has_adjacent c (Py.rstrip c s) = false.
Proof.
  induction s as [|x s IH]; simpl; [reflexivity|].
  intros H. apply orb_false_iff in H as [H1 H2].
  specialize (IH H2).
  destruct (Py.rstrip c s) as [|y r] eqn:E.
  - destruct (Ascii.eqb x c) eqn:Ex; simpl; rewrite ?Ex; reflexivity.
  - change (Py.has_adjacent c (String x (String y r)))
      with (Ascii.eqb x c && Py.startswith c (String y r)
            || Py.has_adjacent c (String y r)).
    rewrite IH, orb_false_r.
    destruct (Ascii.eqb x c); [|reflexivity]. simpl in H1.
    destruct (Py.startswith c (String y r)) eqn:Es; [|reflexivity].
    rewrite <- E in Es. apply rstrip_startswith in Es. congruence.
Qed.

Lemma strip_startswith s : Py.startswith c (Py.strip c s) = false.
Proof. apply lstrip_startswith. Qed.

Lemma strip_endswith s : Py.endswith c (Py.strip c s) = false.
Proof. apply lstrip_endswith, rstrip_endswith. Qed.

Lemma strip_has_adjacent s :
  Py.has_adjacent c s = false → Py.has_adjacent c (Py.strip c s) = false.
Proof. intros H. apply lstrip_has_adjacent, rstrip_has_adjacent, H. Qed.

Lemma endswith_cons x s :
  Py.endswith c (String x s) =
  if Py.truthy s then Py.endswith c s else Ascii.eqb x c.
Proof. destruct s; reflexivity. Qed.

(** How [split] sees the shape of a string: an empty piece appears
    exactly when the string is empty, starts or ends with the separator,
    or has two separators in a row. *)
Lemma split_empty_piece s :
  existsb (λ seg, negb (Py.truthy seg)) (Py.split c s) =
    negb (Py.truthy s) || Py.startswith c s || Py.endswith c s
    || Py.has_adjacent c s
  ∧ existsb (λ seg, negb (Py.truthy seg)) (tail (Py.split c s)) =
    Py.endswith c s || Py.has_adjacent c s.
Proof.
  induction s as [|x s [IH1 IH2]]; [split; reflexivity|].
  rewrite endswith_cons.
  change (Py.has_adjacent c (String x s))
    with (Ascii.eqb x c && Py.startswith c s || Py.has_adjacent c s).
  change (Py.startswith c (String x s)) with (Ascii.eqb x c).
  cbn [Py.split Py.truthy negb].
  destruct (Ascii.eqb x c) eqn:E.
  - cbn [existsb tail Py.truthy negb]. rewrite IH1.
    split; [reflexivity|].
    destruct s as [|y s]; [reflexivity|]. cbn [Py.truthy negb].
    generalize (Py.startswith c (String y s)) (Py.endswith c (String y s))
      (Py.has_adjacent c (String y s)).
    intros [] [] []; reflexivity.
  - assert (Hen : (if Py.truthy s then Py.endswith c s else false)
                  = Py.endswith c s) by (destruct s; reflexivity).
    rewrite Hen. clear Hen.
    destruct (Py.split c s) as [|h r] eqn:Es;
      cbn [existsb tail Py.truthy negb orb andb] in *.
    + symmetry in IH1. apply orb_false_iff in IH1 as [IH1 Hadj].
      apply orb_false_iff in IH1 as [_ Hend].
      rewrite Hend, Hadj. split; reflexivity.
    + rewrite IH2. split; reflexivity.
Qed.

End StringFacts.


(** ** The key builder *)

Lemma or_else_empty s : Py.or_else s "" = s.
Proof. destruct s; reflexivity. Qed.

Lemma rstrip_all_char c s : Py.all_char c s = true → Py.rstrip c s = "".
Proof.
  induction s as [|x s IH]; [reflexivity|]. cbn [Py.all_char Py.rstrip].
  intros [Hx Hs]%andb_true_iff. rewrite (IH Hs), Hx. reflexivity.
Qed.

Lemma strip_all_char c s : Py.all_char c s = true → Py.strip c s = "".
Proof. intros H. unfold Py.strip. rewrite (rstrip_all_char _ _ H). reflexivity. Qed.

Lemma build_s3_key_loop cfg parts acc :
  fold_left (build_s3_key_step cfg) parts acc = acc ++ cleaned cfg parts.
Proof.
  revert acc. induction parts as [|part parts IH]; intros acc.
  - unfold cleaned. simpl. rewrite app_nil_r. reflexivity.
  - cbn [fold_left]. rewrite IH. unfold cleaned, build_s3_key_step.
    cbn [map List.filter]. fold (clean_part cfg part).
    destruct part as [|x part].
    + reflexivity.
    + cbn [Py.truthy negb].
      destruct (Py.truthy (clean_part cfg (String x part)));
        [rewrite <- app_assoc|]; reflexivity.
Qed.

Lemma build_s3_key_unfold cfg parts :
  build_s3_key cfg parts =
  with_prefix (Py.strip "/" (S3_PREFIX cfg)) (Py.join "/" (cleaned cfg parts)).
Proof.
  unfold build_s3_key. rewrite build_s3_key_loop, or_else_empty. reflexivity.
Qed.

Lemma strip_tidy s : Py.truthy (Py.strip "/" s) = true → tidy (Py.strip "/" s).
Proof.
  intros H. split; [exact H|]. split;
    [apply strip_startswith | apply strip_endswith].
Qed.

Lemma cleaned_tidy cfg parts : Forall tidy (cleaned cfg parts).
Proof.
  unfold cleaned. induction parts as [|p parts IH]; [constructor|].
  cbn [map List.filter].
  destruct (Py.truthy (clean_part cfg p)) eqn:E; [|exact IH].
  constructor; [|exact IH]. apply strip_tidy, E.
Qed.

Lemma cleaned_no_adjacent cfg parts :
  Forall (λ p, Py.has_adjacent "/" (Py.replace (os_sep cfg) "/" p) = false) parts →
  Forall (λ p, Py.has_adjacent "/" p = false) (cleaned cfg parts).
Proof.
  unfold cleaned. induction 1 as [|p parts Hp _ IH]; [constructor|].
  cbn [map List.filter].
  destruct (Py.truthy (clean_part cfg p)); [|exact IH].
  constructor; [|exact IH]. apply strip_has_adjacent, Hp.
Qed.

(** Joining two tidy strings with a slash. *)
Lemma slash_tidy a b : tidy a → tidy b → tidy (a +:+ "/" +:+ b).
Proof.
  intros (Ta & Sa & _) (Tb & _ & Eb). repeat split.
  - rewrite truthy_app, Ta. reflexivity.
  - rewrite startswith_app, Ta. exact Sa.
  - rewrite !endswith_app. cbn [String.append]. rewrite truthy_app, Tb.
    cbn [Py.truthy orb]. exact Eb.
Qed.

Lemma slash_no_adjacent a b :
  tidy a → tidy b →
  Py.has_adjacent "/" a = false → Py.has_adjacent "/" b = false →
  Py.has_adjacent "/" (a +:+ "/" +:+ b) = false.
Proof.
  intros (_ & _ & Ea) (_ & Sb & _) Ha Hb.
  rewrite !has_adjacent_app, Ha, Ea, Hb, Sb. reflexivity.
Qed.

Lemma join_tidy ps : ps ≠ [] → Forall tidy ps → tidy (Py.join "/" ps).
Proof.
  induction ps as [|p ps IH]; [congruence|]. intros _ H.
  apply Forall_cons in H as [Hp Hps].
  destruct ps as [|q ps]; [exact Hp|].
  change (Py.join "/" (p :: q :: ps)) with (p +:+ "/" +:+ Py.join "/" (q :: ps)).
  apply slash_tidy; [exact Hp|]. apply IH; [congruence|exact Hps].
Qed.

Lemma join_no_adjacent ps :
  Forall tidy ps → Forall (λ p, Py.has_adjacent "/" p = false) ps →
  Py.has_adjacent "/" (Py.join "/" ps) = false.
Proof.
  induction ps as [|p ps IH]; [reflexivity|]. intros Ht Ha.
  apply Forall_cons in Ht as [Hp Hps]. apply Forall_cons in Ha as [Ap Aps].
  destruct ps as [|q ps]; [exact Ap|].
  change (Py.join "/" (p :: q :: ps)) with (p +:+ "/" +:+ Py.join "/" (q :: ps)).
  apply slash_no_adjacent; auto. apply join_tidy; [congruence|exact Hps].
Qed.

(** The joined parts are empty or tidy. *)
Lemma join_cleaned cfg parts :
  Py.join "/" (cleaned cfg parts) = "" ∨ tidy (Py.join "/" (cleaned cfg parts)).
Proof.
  destruct (cleaned cfg parts) as [|p ps] eqn:E; [left; reflexivity|].
  right. rewrite <- E. apply join_tidy; [congruence|apply cleaned_tidy].
Qed.

Lemma with_prefix_edges prefix key :
  (prefix = "" ∨ tidy prefix) → (key = "" ∨ tidy key) →
  with_prefix prefix key = "" ∨ tidy (with_prefix prefix key).
Proof.
  unfold with_prefix. intros [->|Hp] [->|Hk]; cbn [Py.truthy]; auto.
  - destruct Hp as (T & ?). rewrite T. right. split; auto.
  - pose proof Hp as (Tp & _). pose proof Hk as (Tk & _). rewrite Tp, Tk.
    right. apply slash_tidy; assumption.
Qed.

Lemma strip_edges s : Py.strip "/" s = "" ∨ tidy (Py.strip "/" s).
Proof.
  destruct (Py.truthy (Py.strip "/" s)) eqn:E.
  - right. apply strip_tidy, E.
  - left. destruct (Py.strip "/" s); [reflexivity|discriminate].
Qed.

Lemma build_s3_key_edges cfg parts :
  build_s3_key cfg parts = "" ∨ tidy (build_s3_key cfg parts).
Proof.
  rewrite build_s3_key_unfold.
  apply with_prefix_edges; [apply strip_edges|apply join_cleaned].
Qed.

Lemma build_s3_key_no_adjacent cfg parts :
  Py.has_adjacent "/" (S3_PREFIX cfg) = false →
  Forall (λ p, Py.has_adjacent "/" (Py.replace (os_sep cfg) "/" p) = false) parts →
  Py.has_adjacent "/" (build_s3_key cfg parts) = false.
Proof.
  intros Hp Hparts. rewrite build_s3_key_unfold.
  pose proof (strip_has_adjacent "/" _ Hp) as Hp'.
  pose proof (join_no_adjacent _ (cleaned_tidy cfg parts)
                (cleaned_no_adjacent _ _ Hparts)) as Hk.
  unfold with_prefix.
  destruct (Py.truthy (Py.strip "/" (S3_PREFIX cfg))) eqn:Tp; [|exact Hk].
  destruct (Py.truthy (Py.join "/" (cleaned cfg parts))) eqn:Tk; [|exact Hp'].
  apply slash_no_adjacent; auto.
  - apply strip_tidy, Tp.
  - destruct (join_cleaned cfg parts) as [E|H]; [|exact H].
    rewrite E in Tk. discriminate.
Qed.

Example cfg_s3_enabled : s3_enabled cfg_s3 = true.
Proof. vm_compute. reflexivity. Qed.

Example cfg_local_disabled : s3_enabled cfg_local = false.
Proof. vm_compute. reflexivity. Qed.

Example cfg_bare_enabled : s3_enabled cfg_bare = true.
Proof. vm_compute. reflexivity. Qed.

(** C3 (as the code has it): [build_s3_key] cleans every segment (the
    platform separator replaced by "/", slashes stripped from both ends),
    drops the segments left empty, joins the rest with "/" and puts the
    configured prefix, stripped of its own outer slashes, in front when it
    is not empty.  The key never starts or ends with a slash.  A non-empty
    key has no empty segment provided neither the prefix nor any segment
    holds two adjacent slashes.  With the prefix "deepwiki", on a host whose
    separator is "/" or "\", the segments "a", "", "b/", "/c" give
    "deepwiki/a/b/c" and no segments give "deepwiki". *)
Theorem build_s3_key_normalised (cfg : Config) (parts : list string) :
  let key := build_s3_key cfg parts in
  key = with_prefix (Py.strip "/" (S3_PREFIX cfg))
          (Py.join "/" (cleaned cfg parts))
  ∧ Py.startswith "/" key = false
  ∧ Py.endswith "/" key = false
  ∧ (Py.has_adjacent "/" (S3_PREFIX cfg) = false →
     Forall (λ p, Py.has_adjacent "/" (Py.replace (os_sep cfg) "/" p) = false)
       parts →
     key ≠ "" → has_empty_segment key = false)
  ∧ (S3_PREFIX cfg = "deepwiki" →
     os_sep cfg = "/"%char ∨ os_sep cfg = "\"%char →
     build_s3_key cfg ["a"; ""; "b/"; "/c"] = "deepwiki/a/b/c"
     ∧ build_s3_key cfg [] = "deepwiki").
Proof.
  intros key. subst key.
  assert (Hedges : Py.startswith "/" (build_s3_key cfg parts) = false
                   ∧ Py.endswith "/" (build_s3_key cfg parts) = false).
  { destruct (build_s3_key_edges cfg parts) as [->|(_ & S & E)]; auto. }
  destruct Hedges as [Hs He].
  split; [apply build_s3_key_unfold|]. do 2 (split; [assumption|]). split.
  - intros Hp Hparts Hne. unfold has_empty_segment.
    rewrite (proj1 (split_empty_piece "/" _)), Hs, He.
    rewrite (build_s3_key_no_adjacent _ _ Hp Hparts).
    destruct (build_s3_key cfg parts); [congruence|reflexivity].
  - intros Hprefix Hsep. unfold build_s3_key, build_s3_key_step.
    rewrite Hprefix. destruct Hsep as [->| ->]; vm_compute; auto.
Qed.

Lemma build_s3_key_normalised_witness :
  has_empty_segment (build_s3_key cfg_s3 ["a"; ""; "b/"; "/c"]) = false
  ∧ build_s3_key cfg_s3 ["a"; ""; "b/"; "/c"] = "deepwiki/a/b/c"
  ∧ build_s3_key cfg_s3 [] = "deepwiki".
Proof.
  destruct (build_s3_key_normalised cfg_s3 ["a"; ""; "b/"; "/c"])
    as (_ & _ & _ & Hseg & Hdoc).
  split.
  - apply Hseg.
    + vm_compute. reflexivity.
    + repeat constructor.
    + vm_compute. discriminate.
  - apply Hdoc; [vm_compute; reflexivity | left; vm_compute; reflexivity].
Defined.

(** C3, as stated, fails: a segment with two slashes inside keeps them, so
    the key has an empty segment. *)
Lemma build_s3_key_inner_slashes :
  build_s3_key cfg_s3 ["a//b"] = "deepwiki/a//b"
  ∧ has_empty_segment (build_s3_key cfg_s3 ["a//b"]) = true.
Proof. vm_compute. split; reflexivity. Qed.

(** C9: with a prefix that is empty or made of slashes only, the key is the
    cleaned segments joined with "/", it has no leading slash, and no
    segments give the empty key. *)
Theorem build_s3_key_blank_prefix (cfg : Config) (parts : list string) :
  Py.all_char "/" (S3_PREFIX cfg) = true →
  build_s3_key cfg parts = Py.join "/" (cleaned cfg parts)
  ∧ Py.startswith "/" (build_s3_key cfg parts) = false
  ∧ build_s3_key cfg [] = "".
Proof.
  intros Hprefix.
  assert (Hkey : ∀ ps, build_s3_key cfg ps = Py.join "/" (cleaned cfg ps)).
  { intros ps. rewrite build_s3_key_unfold, (strip_all_char _ _ Hprefix).
    reflexivity. }
  split; [apply Hkey|]. split; [|rewrite Hkey; reflexivity].
  destruct (build_s3_key_edges cfg parts) as [->|(_ & S & _)]; auto.
Qed.

Lemma build_s3_key_blank_prefix_witness :
  build_s3_key cfg_bare ["/a/"; "//"; "b"] = "a/b"
  ∧ build_s3_key cfg_bare [] = "".
Proof.
  destruct (build_s3_key_blank_prefix cfg_bare ["/a/"; "//"; "b"])
    as (Hkey & _ & Hnone); [vm_compute; reflexivity|].
  split; [rewrite Hkey; vm_compute; reflexivity | exact Hnone].
Defined.

(** ** The wrappers *)

(** Unfolds the monad and the primitive effects of a wrapper. *)
Ltac unfold_run :=
  unfold s3_object_exists, s3_read_json, s3_write_json, s3_download_file,
    s3_upload_file, s3_delete_object, s3_list_objects, ensure_local_file,
    client_download_file, client_upload_file, try_except, client_call,
    logger_error, os_path_exists, fs_update, fs_read, lift, raise,
    mbind, M_bind, mret, M_ret in *.

(** The store is disabled exactly when no bucket is configured (unset or
    empty), or the backend is not "s3" and the flag is off. *)
Lemma s3_disabled_iff (cfg : Config) :
  s3_enabled cfg = false ↔
  (S3_BUCKET cfg = None ∨ S3_BUCKET cfg = Some ""
   ∨ (STORAGE_BACKEND cfg ≠ "s3" ∧ S3_ENABLED_ENV cfg = false)).
Proof.
  unfold s3_enabled, bucket_set.
  destruct (S3_BUCKET cfg) as [[|x b]|]; cbn [Py.truthy andb];
    [tauto| |tauto].
  destruct (S3_ENABLED_ENV cfg); case_bool_decide; cbn [orb]; split;
    try tauto; try congruence.
  - intros [?|[?|[? ?]]]; congruence.
  - intros [?|[?|[? ?]]]; congruence.
  - intros [?|[?|[? ?]]]; congruence.
Qed.

Section Wrappers.

Context {R : Type} `{!S3Client R} {J : Type} `{!JsonCodec J}.

(** C2: when the store is not enabled, every remote operation returns its
    empty result and leaves the world as it was: nothing is called on the
    client, nothing is logged, nothing is raised. *)
Theorem disabled_is_no_op (cfg : Config) (w : World R) :
  (S3_BUCKET cfg = None ∨ S3_BUCKET cfg = Some ""
   ∨ (STORAGE_BACKEND cfg ≠ "s3" ∧ S3_ENABLED_ENV cfg = false)) →
  (∀ key, s3_object_exists cfg key w = (Returned false, w))
  ∧ (∀ key, s3_read_json (J:=J) cfg key w = (Returned None, w))
  ∧ (∀ key (data : J), s3_write_json cfg key data w = (Returned false, w))
  ∧ (∀ key local_path,
       s3_download_file cfg key local_path w = (Returned false, w))
  ∧ (∀ local_path key,
       s3_upload_file cfg local_path key w = (Returned false, w))
  ∧ (∀ key, s3_delete_object cfg key w = (Returned false, w))
  ∧ (∀ prefix, s3_list_objects cfg prefix w = (Returned [], w)).
Proof.
  intros Hoff%s3_disabled_iff. unfold_run. rewrite Hoff.
  repeat split; reflexivity.
Qed.

End Wrappers.

Lemma disabled_is_no_op_witness :
  let w := Mock.world [("/srv/a.json", File "{}")] [("deepwiki/a", "{}")] None in
  s3_object_exists cfg_local "deepwiki/a" w = (Returned false, w)
  ∧ s3_list_objects cfg_local "deepwiki" w = (Returned [], w)
  ∧ s3_upload_file cfg_local "/srv/a.json" "deepwiki/a" w = (Returned false, w).
Proof.
  intros w.
  destruct (disabled_is_no_op (J:=string) cfg_local w)
    as (Hexists & _ & _ & _ & Hup & _ & Hlist).
  - left. vm_compute. reflexivity.
  - split; [apply Hexists|]. split; [apply Hlist | apply Hup].
Defined.

(** ** The filesystem *)

(** [rstrip] and [head_part] return prefixes: they never lengthen a string,
    and keep its length only when they keep the string. *)
Lemma rstrip_length c s :
  String.length (Py.rstrip c s) ≤ String.length s
  ∧ (String.length (Py.rstrip c s) = String.length s → Py.rstrip c s = s).
Proof.
  induction s as [|a t [IHle IHeq]]; [split; reflexivity|].
  cbn [Py.rstrip]. destruct (Py.rstrip c t) as [|b r] eqn:E.
  - destruct (Ascii.eqb a c); cbn [String.length] in *.
    + split; [lia|discriminate].
    + split; [lia|]. intros Hlen. destruct t; [reflexivity|discriminate].
  - cbn [String.length] in *. split; [lia|].
    intros Hlen. rewrite IHeq; [reflexivity|lia].
Qed.

Lemma head_part_length sep p :
  String.length (OsPath.head_part sep p) ≤ String.length p
  ∧ (String.length (OsPath.head_part sep p) = String.length p →
     OsPath.head_part sep p = p).
Proof.
  induction p as [|a t [IHle IHeq]]; [split; reflexivity|].
  cbn [OsPath.head_part]. destruct (OsPath.head_part sep t) as [|b r] eqn:E.
  - destruct (Ascii.eqb a sep); cbn [String.length] in *.
    + split; [lia|]. intros Hlen. destruct t; [reflexivity|discriminate].
    + split; [lia|discriminate].
  - cbn [String.length] in *. split; [lia|].
    intros Hlen. rewrite IHeq; [reflexivity|lia].
Qed.

Lemma dirname_length sep p :
  String.length (OsPath.dirname sep p) ≤ String.length p
  ∧ (String.length (OsPath.dirname sep p) = String.length p →
     OsPath.dirname sep p = p).
Proof.
  unfold OsPath.dirname.
  destruct (head_part_length sep p) as [Hle Heq].
  destruct (rstrip_length sep (OsPath.head_part sep p)) as [Rle Req].
  destruct (_ && _).
  - split; [lia|]. intros Hlen. rewrite Req; [apply Heq|]; lia.
  - split; assumption.
Qed.

(** The chain of ancestors is complete: more steps than the path has
    characters find nothing more. *)
Lemma ancestors_upto_enough sep : ∀ n m p,
  String.length p ≤ n → String.length p ≤ m →
  OsPath.ancestors_upto n sep p = OsPath.ancestors_upto m sep p.
Proof.
  induction n as [|n IH]; intros m p Hn Hm.
  - destruct p; [|cbn in Hn; lia]. destruct m; reflexivity.
  - destruct m as [|m].
    + destruct p; [reflexivity|cbn in Hm; lia].
    + cbn [OsPath.ancestors_upto].
      destruct (Py.truthy (OsPath.dirname sep p)
                && negb (String.eqb (OsPath.dirname sep p) p)) eqn:E;
        [|reflexivity].
      apply andb_true_iff in E as [_ Hne].
      apply negb_true_iff, String.eqb_neq in Hne.
      destruct (dirname_length sep p) as [Hle Heq].
      assert (String.length (OsPath.dirname sep p) < String.length p).
      { destruct (decide (String.length (OsPath.dirname sep p)
                          = String.length p)) as [Hlen|Hlen];
          [destruct (Hne (Heq Hlen))|lia]. }
      rewrite (IH m); [reflexivity|lia|lia].
Qed.

Lemma ancestors_unfold sep p :
  OsPath.ancestors sep p =
  let d := OsPath.dirname sep p in
  if Py.truthy d && negb (String.eqb d p)
  then OsPath.ancestors sep d ++ [d] else [].
Proof.
  unfold OsPath.ancestors. destruct p as [|a t]; [reflexivity|].
  cbn [String.length OsPath.ancestors_upto]. cbn zeta.
  destruct (_ && _) eqn:E; [|reflexivity].
  apply andb_true_iff in E as [_ Hne].
  apply negb_true_iff, String.eqb_neq in Hne.
  destruct (dirname_length sep (String a t)) as [Hle Heq].
  cbn [String.length] in *.
  rewrite (ancestors_upto_enough sep (String.length t)
             (String.length (OsPath.dirname sep (String a t))));
    [reflexivity| |lia].
  destruct (decide (String.length (OsPath.dirname sep (String a t))
                    = S (String.length t))) as [Hlen|Hlen];
    [destruct (Hne (Heq Hlen))|lia].
Qed.

Lemma os_makedirs_isdir sep name (tree tree' : gmap string Node) :
  os_makedirs sep name tree = Returned tree' → OsPath.isdir tree' name = true.
Proof.
  unfold os_makedirs. intros H.
  destruct (negb (Py.truthy name)); [discriminate|].
  destruct (OsPath.isdir tree name) eqn:Hd; [congruence|].
  destruct (OsPath.isfile tree name); [discriminate|].
  destruct (existsb _ _); [discriminate|].
  injection H as <-. unfold OsPath.isdir. rewrite lookup_insert_eq. reflexivity.
Qed.

Lemma os_makedirs_raises sep name (tree : gmap string Node) e :
  os_makedirs sep name tree = Raised e → ∃ n, e = OtherError n.
Proof.
  unfold os_makedirs. intros H.
  repeat match type of H with
         | (if ?b then _ else _) = _ => destruct b
         end; inversion H; eauto.
Qed.

Lemma mkdir_chain_isfile (tree : gmap string Node) (chain : list string) q :
  existsb (OsPath.isfile tree) chain = false →
  OsPath.isfile (foldr (λ d m, <[d := Dir]> m) tree chain) q
  = OsPath.isfile tree q.
Proof.
  induction chain as [|d chain IH]; [reflexivity|].
  cbn [existsb foldr]. intros [Hd Hc]%orb_false_iff.
  unfold OsPath.isfile at 1. rewrite lookup_insert. case_decide.
  - subst q. rewrite Hd. reflexivity.
  - apply IH, Hc.
Qed.

(** Creating directories never creates, removes or replaces a file. *)
Lemma os_makedirs_isfile sep name (tree tree' : gmap string Node) q :
  os_makedirs sep name tree = Returned tree' →
  OsPath.isfile tree' q = OsPath.isfile tree q.
Proof.
  unfold os_makedirs. intros H.
  destruct (negb (Py.truthy name)); [discriminate|].
  destruct (OsPath.isdir tree name); [congruence|].
  destruct (OsPath.isfile tree name) eqn:Hf; [discriminate|].
  destruct (existsb _ _) eqn:Hc; [discriminate|].
  injection H as <-. unfold OsPath.isfile at 1. rewrite lookup_insert.
  case_decide.
  - subst q. rewrite Hf. reflexivity.
  - apply (mkdir_chain_isfile _ _ _ Hc).
Qed.

Lemma write_file_raises sep filename content (tree : gmap string Node) e :
  write_file sep filename content tree = Raised e → ∃ n, e = OtherError n.
Proof.
  unfold write_file. intros H.
  repeat match type of H with
         | (if ?b then _ else _) = _ => destruct b
         end; inversion H; eauto.
Qed.

Section Reads.

Context {R : Type} `{!S3Client R} {J : Type} `{!JsonCodec J}.
Variable cfg : Config.

(** The outcomes of [s3_object_exists] on an enabled store, by what
    [head_object] answers. *)
Lemma s3_object_exists_found key (w : World R) s :
  s3_enabled cfg = true →
  head_object (S3_BUCKET cfg) key (remote w) = (Returned (), s) →
  s3_object_exists cfg key w
  = (Returned true, after_call w (HeadObject (S3_BUCKET cfg) key) s).
Proof. intros Hon Hhead. unfold_run. rewrite Hon. cbn. rewrite Hhead. reflexivity. Qed.

Lemma s3_object_exists_not_found key (w : World R) code s :
  s3_enabled cfg = true →
  head_object (S3_BUCKET cfg) key (remote w) = (Raised (ClientError code), s) →
  is_not_found code = true →
  s3_object_exists cfg key w
  = (Returned false, after_call w (HeadObject (S3_BUCKET cfg) key) s).
Proof.
  intros Hon Hhead Hcode. unfold_run. rewrite Hon. cbn. rewrite Hhead. cbn.
  rewrite Hcode. reflexivity.
Qed.

Lemma s3_object_exists_client_error key (w : World R) code s :
  s3_enabled cfg = true →
  head_object (S3_BUCKET cfg) key (remote w) = (Raised (ClientError code), s) →
  is_not_found code = false →
  s3_object_exists cfg key w
  = (Returned false,
     after_error (after_call w (HeadObject (S3_BUCKET cfg) key) s)
       "S3 head_object failed for %s: %s" key (ClientError code)).
Proof.
  intros Hon Hhead Hcode. unfold_run. rewrite Hon. cbn. rewrite Hhead. cbn.
  rewrite Hcode. reflexivity.
Qed.

(** Any other exception leaves [s3_object_exists] unhandled. *)
Lemma s3_object_exists_other_error key (w : World R) name s :
  s3_enabled cfg = true →
  head_object (S3_BUCKET cfg) key (remote w) = (Raised (OtherError name), s) →
  s3_object_exists cfg key w
  = (Raised (OtherError name), after_call w (HeadObject (S3_BUCKET cfg) key) s).
Proof. intros Hon Hhead. unfold_run. rewrite Hon. cbn. rewrite Hhead. reflexivity. Qed.

(** C4: [ensure_local_file] returns true at once, calling nothing, when the
    local path exists; otherwise false when the store is disabled;
    otherwise it asks the service for the key with one [head_object] call
    and, when the object is there, continues as [s3_download_file] and
    returns its result, while a "not found" answer gives false. *)
Theorem ensure_local_file_cases (local_path key : string) (w : World R) :
  (OsPath.exists_ (fs w) local_path = true →
   ensure_local_file cfg local_path key w = (Returned true, w))
  ∧ (OsPath.exists_ (fs w) local_path = false →
     s3_enabled cfg = false →
     ensure_local_file cfg local_path key w = (Returned false, w))
  ∧ (OsPath.exists_ (fs w) local_path = false →
     s3_enabled cfg = true →
     ∀ s, head_object (S3_BUCKET cfg) key (remote w) = (Returned (), s) →
     ensure_local_file cfg local_path key w
     = s3_download_file cfg key local_path
         (after_call w (HeadObject (S3_BUCKET cfg) key) s))
  ∧ (OsPath.exists_ (fs w) local_path = false →
     s3_enabled cfg = true →
     ∀ code s,
       head_object (S3_BUCKET cfg) key (remote w)
       = (Raised (ClientError code), s) →
       is_not_found code = true →
       ensure_local_file cfg local_path key w
       = (Returned false, after_call w (HeadObject (S3_BUCKET cfg) key) s)).
Proof.
  repeat apply conj.
  - intros Hpath. unfold ensure_local_file, os_path_exists, mbind, M_bind.
    rewrite Hpath. reflexivity.
  - intros Hpath Hoff. unfold ensure_local_file, os_path_exists, mbind, M_bind.
    rewrite Hpath, Hoff. reflexivity.
  - intros Hpath Hon s Hhead.
    unfold ensure_local_file, os_path_exists, mbind, M_bind at 1 2.
    rewrite Hpath, Hon. cbn [negb].
    rewrite (s3_object_exists_found _ _ _ Hon Hhead). reflexivity.
  - intros Hpath Hon code s Hhead Hcode.
    unfold ensure_local_file, os_path_exists, mbind, M_bind at 1 2.
    rewrite Hpath, Hon. cbn [negb].
    rewrite (s3_object_exists_not_found _ _ _ _ Hon Hhead Hcode).
    reflexivity.
Qed.

(** The outcomes of [s3_read_json] on an enabled store. *)
Lemma s3_read_json_parsed key (w : World R) payload s (doc : J) :
  s3_enabled cfg = true →
  get_object (S3_BUCKET cfg) key (remote w) = (Returned payload, s) →
  json_loads payload = Returned doc →
  s3_read_json cfg key w
  = (Returned (Some doc), after_call w (GetObject (S3_BUCKET cfg) key) s).
Proof.
  intros Hon Hget Hdoc. unfold_run. rewrite Hon. cbn.
  rewrite Hget. cbn. rewrite Hdoc. reflexivity.
Qed.

Lemma s3_read_json_not_found key (w : World R) code s :
  s3_enabled cfg = true →
  get_object (S3_BUCKET cfg) key (remote w) = (Raised (ClientError code), s) →
  is_not_found code = true →
  s3_read_json (J:=J) cfg key w
  = (Returned None, after_call w (GetObject (S3_BUCKET cfg) key) s).
Proof.
  intros Hon Hget Hcode. unfold_run. rewrite Hon. cbn.
  rewrite Hget. cbn. rewrite Hcode. reflexivity.
Qed.

Lemma s3_read_json_failure key (w : World R) e s :
  s3_enabled cfg = true →
  get_object (S3_BUCKET cfg) key (remote w) = (Raised e, s) →
  (∀ code, e = ClientError code → is_not_found code = false) →
  ∃ fmt,
    s3_read_json (J:=J) cfg key w
    = (Returned None,
       after_error (after_call w (GetObject (S3_BUCKET cfg) key) s) fmt key e).
Proof.
  intros Hon Hget Hcode. unfold_run. rewrite Hon. cbn. rewrite Hget. cbn.
  destruct e as [code|n]; [rewrite (Hcode code eq_refl)|]; eexists;
    reflexivity.
Qed.

(** With the local path missing, what [s3_object_exists] lets through
    comes out of [ensure_local_file] as well. *)
Lemma ensure_local_file_other_error local_path key (w : World R) name s :
  OsPath.exists_ (fs w) local_path = false →
  s3_enabled cfg = true →
  head_object (S3_BUCKET cfg) key (remote w) = (Raised (OtherError name), s) →
  ensure_local_file cfg local_path key w
  = (Raised (OtherError name), after_call w (HeadObject (S3_BUCKET cfg) key) s).
Proof.
  intros Hpath Hon Hhead.
  unfold ensure_local_file, os_path_exists, mbind, M_bind at 1 2.
  rewrite Hpath, Hon. cbn [negb].
  rewrite (s3_object_exists_other_error _ _ _ _ Hon Hhead). reflexivity.
Qed.

(** The outcomes of [s3_download_file] on an enabled store. *)
Lemma s3_download_file_mkdir_failed key local_path (w : World R) e :
  s3_enabled cfg = true →
  os_makedirs (os_sep cfg) (OsPath.dirname (os_sep cfg) local_path) (fs w)
  = Raised e →
  s3_download_file cfg key local_path w
  = (Returned false,
     after_error w "S3 download_file failed for %s: %s" key e).
Proof.
  intros Hon Hmk. destruct (os_makedirs_raises _ _ _ _ Hmk) as [n ->].
  unfold_run. rewrite Hon. cbn. rewrite Hmk. reflexivity.
Qed.

Lemma s3_download_file_written key local_path (w : World R) tree content s tree' :
  s3_enabled cfg = true →
  os_makedirs (os_sep cfg) (OsPath.dirname (os_sep cfg) local_path) (fs w)
  = Returned tree →
  download_object (S3_BUCKET cfg) key (remote w) = (Returned content, s) →
  write_file (os_sep cfg) local_path content tree = Returned tree' →
  s3_download_file cfg key local_path w
  = (Returned true,
     with_fs (after_call (with_fs w tree)
                (DownloadFile (S3_BUCKET cfg) key local_path) s) tree').
Proof.
  intros Hon Hmk Hget Hwr. unfold_run. rewrite Hon. cbn.
  rewrite Hmk. cbn. rewrite Hget. cbn. rewrite Hwr. reflexivity.
Qed.

Lemma s3_download_file_not_found key local_path (w : World R) tree code s :
  s3_enabled cfg = true →
  os_makedirs (os_sep cfg) (OsPath.dirname (os_sep cfg) local_path) (fs w)
  = Returned tree →
  download_object (S3_BUCKET cfg) key (remote w)
  = (Raised (ClientError code), s) →
  is_not_found code = true →
  s3_download_file cfg key local_path w
  = (Returned false,
     after_call (with_fs w tree)
       (DownloadFile (S3_BUCKET cfg) key local_path) s).
Proof.
  intros Hon Hmk Hget Hcode. unfold_run. rewrite Hon. cbn.
  rewrite Hmk. cbn. rewrite Hget. cbn. rewrite Hcode. reflexivity.
Qed.

Lemma s3_download_file_remote_error key local_path (w : World R) tree e s :
  s3_enabled cfg = true →
  os_makedirs (os_sep cfg) (OsPath.dirname (os_sep cfg) local_path) (fs w)
  = Returned tree →
  download_object (S3_BUCKET cfg) key (remote w) = (Raised e, s) →
  (∀ code, e = ClientError code → is_not_found code = false) →
  s3_download_file cfg key local_path w
  = (Returned false,
     after_error (after_call (with_fs w tree)
                    (DownloadFile (S3_BUCKET cfg) key local_path) s)
       "S3 download_file failed for %s: %s" key e).
Proof.
  intros Hon Hmk Hget Hcode. unfold_run. rewrite Hon. cbn.
  rewrite Hmk. cbn. rewrite Hget. cbn.
  destruct e as [code|n]; [rewrite (Hcode code eq_refl)|]; reflexivity.
Qed.

Lemma s3_download_file_write_failed key local_path (w : World R) tree content s e :
  s3_enabled cfg = true →
  os_makedirs (os_sep cfg) (OsPath.dirname (os_sep cfg) local_path) (fs w)
  = Returned tree →
  download_object (S3_BUCKET cfg) key (remote w) = (Returned content, s) →
  write_file (os_sep cfg) local_path content tree = Raised e →
  s3_download_file cfg key local_path w
  = (Returned false,
     after_error (after_call (with_fs w tree)
                    (DownloadFile (S3_BUCKET cfg) key local_path) s)
       "S3 download_file failed for %s: %s" key e).
Proof.
  intros Hon Hmk Hget Hwr. destruct (write_file_raises _ _ _ _ _ Hwr) as [n ->].
  unfold_run. rewrite Hon. cbn.
  rewrite Hmk. cbn. rewrite Hget. cbn. rewrite Hwr. reflexivity.
Qed.

(** C7: on an enabled store [s3_download_file] first creates the parent
    directory of the destination.  When that fails the failure is logged
    and false returned.  When it succeeds the parent is a directory in the
    tree the download then writes to: a written file gives true, a
    "not found" answer gives false with nothing logged, and any other
    failure, of the service or of the write, is logged and gives false. *)
Theorem s3_download_file_cases (key local_path : string) (w : World R) :
  s3_enabled cfg = true →
  let parent := OsPath.dirname (os_sep cfg) local_path in
  let c := DownloadFile (S3_BUCKET cfg) key local_path in
  let fmt := "S3 download_file failed for %s: %s" in
  (∀ e, os_makedirs (os_sep cfg) parent (fs w) = Raised e →
     s3_download_file cfg key local_path w
     = (Returned false, after_error w fmt key e))
  ∧ (∀ tree, os_makedirs (os_sep cfg) parent (fs w) = Returned tree →
     OsPath.isdir tree parent = true
     ∧ (∀ content s tree',
          download_object (S3_BUCKET cfg) key (remote w)
          = (Returned content, s) →
          write_file (os_sep cfg) local_path content tree = Returned tree' →
          s3_download_file cfg key local_path w
          = (Returned true, with_fs (after_call (with_fs w tree) c s) tree'))
     ∧ (∀ code s,
          download_object (S3_BUCKET cfg) key (remote w)
          = (Raised (ClientError code), s) →
          is_not_found code = true →
          s3_download_file cfg key local_path w
          = (Returned false, after_call (with_fs w tree) c s))
     ∧ (∀ e s,
          download_object (S3_BUCKET cfg) key (remote w) = (Raised e, s) →
          (∀ code, e = ClientError code → is_not_found code = false) →
          s3_download_file cfg key local_path w
          = (Returned false,
             after_error (after_call (with_fs w tree) c s) fmt key e))
     ∧ (∀ content s e,
          download_object (S3_BUCKET cfg) key (remote w)
          = (Returned content, s) →
          write_file (os_sep cfg) local_path content tree = Raised e →
          s3_download_file cfg key local_path w
          = (Returned false,
             after_error (after_call (with_fs w tree) c s) fmt key e))).
Proof.
  intros Hon parent c fmt. split.
  - intros e Hmk. apply s3_download_file_mkdir_failed; assumption.
  - intros tree Hmk. split; [apply (os_makedirs_isdir _ _ _ _ Hmk)|].
    repeat apply conj; intros.
    + eapply s3_download_file_written; eassumption.
    + eapply s3_download_file_not_found; eassumption.
    + eapply s3_download_file_remote_error; eassumption.
    + eapply s3_download_file_write_failed; eassumption.
Qed.

(** C10 (as the code has it): on an enabled store, when creating the
    parent directory of the destination succeeds and the service answers
    "not found", [s3_download_file] returns false without logging, the
    parent is a directory afterwards, and no file has appeared at, or gone
    from, the destination. *)
Theorem s3_download_file_absent_leaves_parent (key local_path : string)
    (w : World R) :
  s3_enabled cfg = true →
  ∀ tree code s,
    os_makedirs (os_sep cfg) (OsPath.dirname (os_sep cfg) local_path) (fs w)
    = Returned tree →
    download_object (S3_BUCKET cfg) key (remote w)
    = (Raised (ClientError code), s) →
    is_not_found code = true →
    ∃ w',
      s3_download_file cfg key local_path w = (Returned false, w')
      ∧ OsPath.isdir (fs w') (OsPath.dirname (os_sep cfg) local_path) = true
      ∧ OsPath.isfile (fs w') local_path = OsPath.isfile (fs w) local_path
      ∧ log w' = log w.
Proof.
  intros Hon tree code s Hmk Hget Hcode. eexists. split.
  - eapply s3_download_file_not_found; eassumption.
  - cbn. split; [apply (os_makedirs_isdir _ _ _ _ Hmk)|].
    split; [apply (os_makedirs_isfile _ _ _ _ _ Hmk)|reflexivity].
Qed.

(** C8: on an enabled store [s3_upload_file] returns false, calling
    nothing, when the source path does not exist; when it exists and the
    upload succeeds it returns true; a failure of the upload, in reading
    the source or at the service, is logged and gives false. *)
Theorem s3_upload_file_cases (local_path key : string) (w : World R) :
  s3_enabled cfg = true →
  let c := UploadFile local_path (S3_BUCKET cfg) key in
  let fmt := "S3 upload_file failed for %s: %s" in
  (OsPath.exists_ (fs w) local_path = false →
   s3_upload_file cfg local_path key w = (Returned false, w))
  ∧ (∀ content s,
       read_file local_path (fs w) = Returned content →
       upload_object (S3_BUCKET cfg) key content (remote w) = (Returned (), s) →
       s3_upload_file cfg local_path key w = (Returned true, after_call w c s))
  ∧ (∀ content e s,
       read_file local_path (fs w) = Returned content →
       upload_object (S3_BUCKET cfg) key content (remote w) = (Raised e, s) →
       s3_upload_file cfg local_path key w
       = (Returned false, after_error (after_call w c s) fmt key e))
  ∧ (∀ e,
       OsPath.exists_ (fs w) local_path = true →
       read_file local_path (fs w) = Raised e →
       s3_upload_file cfg local_path key w
       = (Returned false, after_error (after_call w c (remote w)) fmt key e)).
Proof.
  intros Hon c fmt.
  assert (Hread : ∀ content, read_file local_path (fs w) = Returned content →
                              OsPath.exists_ (fs w) local_path = true).
  { unfold read_file, OsPath.exists_. intros content.
    destruct (fs w !! local_path) as [[]|]; congruence. }
  repeat apply conj.
  - intros Hpath. unfold_run. rewrite Hon. cbn. rewrite Hpath. reflexivity.
  - intros content s Hrd Hup. unfold_run. rewrite Hon. cbn.
    rewrite (Hread _ Hrd). cbn. rewrite Hrd, Hup. reflexivity.
  - intros content e s Hrd Hup. unfold_run. rewrite Hon. cbn.
    rewrite (Hread _ Hrd). cbn. rewrite Hrd, Hup. reflexivity.
  - intros e Hpath Hrd. unfold_run. rewrite Hon. cbn.
    rewrite Hpath. cbn. rewrite Hrd. reflexivity.
Qed.

End Reads.

(** ** Listing *)

Section Listing.

Context {R : Type} `{!S3Client R}.
Variable cfg : Config.

Lemma make_item_matches entry :
  is_Some (Key entry) →
  ∃ it, make_item entry = Returned it ∧ item_matches entry it.
Proof.
  intros [k Hk]. unfold make_item. rewrite Hk. eexists. split; [reflexivity|].
  repeat split. exact Hk.
Qed.

Lemma append_entries_matches entries : ∀ items,
  Forall (λ e, is_Some (Key e)) entries →
  ∃ new, append_entries items entries = Returned (items ++ new)
         ∧ Forall2 item_matches entries new.
Proof.
  induction entries as [|entry entries IH]; intros items Hkeys.
  - exists []. rewrite app_nil_r. split; [reflexivity|constructor].
  - apply Forall_cons in Hkeys as [Hk Hrest].
    destruct (make_item_matches entry Hk) as (it & Hit & Hm).
    destruct (IH (items ++ [it]) Hrest) as (new & Hnew & Hall).
    exists (it :: new). cbn [append_entries]. rewrite Hit, Hnew.
    rewrite <- app_assoc. split; [reflexivity|]. constructor; assumption.
Qed.

Lemma append_pages_matches pages : ∀ items,
  Forall (λ e, is_Some (Key e)) (listed pages) →
  ∃ new, append_pages items pages = Returned (items ++ new)
         ∧ Forall2 item_matches (listed pages) new.
Proof.
  unfold listed. induction pages as [|page pages IH]; intros items Hkeys.
  - exists []. rewrite app_nil_r. split; [reflexivity|constructor].
  - cbn [map concat] in Hkeys |- *. apply Forall_app in Hkeys as [Hpage Hrest].
    destruct (append_entries_matches _ items Hpage) as (new1 & H1 & M1).
    destruct (IH (items ++ new1) Hrest) as (new2 & H2 & M2).
    exists (new1 ++ new2). cbn [append_pages]. fold (entries_of page).
    rewrite H1, H2, <- app_assoc. split; [reflexivity|].
    apply Forall2_app; assumption.
Qed.

(** C6: on an enabled store, when the paginator yields the pages [pages]
    and then stops, [s3_list_objects] returns one sequence that matches,
    entry by entry and in page order, the concatenation of the entries of
    all the pages, each item carrying the entry's key, last-modified time
    and size; on a disabled store it returns the empty sequence. *)
Theorem s3_list_objects_all_pages (prefix : string) (w : World R) :
  (s3_enabled cfg = true →
   ∀ pages s,
     paginate (S3_BUCKET cfg) prefix (remote w) = ((pages, None), s) →
     Forall (λ e, is_Some (Key e)) (listed pages) →
     ∃ items,
       s3_list_objects cfg prefix w
       = (Returned items, after_call w (Paginate (S3_BUCKET cfg) prefix) s)
       ∧ Forall2 item_matches (listed pages) items)
  ∧ (s3_enabled cfg = false →
     s3_list_objects cfg prefix w = (Returned [], w)).
Proof.
  split.
  - intros Hon pages s Hpag Hkeys.
    destruct (append_pages_matches pages [] Hkeys) as (items & Hrun & Hall).
    exists items. unfold s3_list_objects. rewrite Hon. cbn [negb].
    rewrite Hpag, Hrun. split; [reflexivity|exact Hall].
  - intros Hoff. unfold s3_list_objects. rewrite Hoff. reflexivity.
Qed.

(** A listing the paginator ends with an exception is raised to the
    caller, whatever pages came before. *)
Lemma s3_list_objects_failure (prefix : string) (w : World R) pages e s :
  s3_enabled cfg = true →
  paginate (S3_BUCKET cfg) prefix (remote w) = ((pages, Some e), s) →
  ∃ e',
    s3_list_objects cfg prefix w
    = (Raised e', after_call w (Paginate (S3_BUCKET cfg) prefix) s).
Proof.
  intros Hon Hpag. unfold s3_list_objects. rewrite Hon. cbn [negb].
  rewrite Hpag. destruct (append_pages [] pages); eexists; reflexivity.
Qed.

End Listing.

(** ** Which wrappers always come back *)

Section Totality.

Context {R : Type} `{!S3Client R} {J : Type} `{!JsonCodec J}.
Variable cfg : Config.

Ltac settle :=
  repeat first
    [ progress cbn
    | match goal with
      | |- returns (Returned _, _) => eexists _, _; reflexivity
      | |- context [match ?x with _ => _ end] =>
          lazymatch x with
          | context [match _ with _ => _ end] => fail
          | _ => destruct x
          end
      end ].

(** Every wrapper whose [try] has a handler for [Exception] returns a
    value whatever the service and the filesystem do. *)
Lemma guarded_wrappers_return (w : World R) :
  (∀ key, returns (s3_read_json (J:=J) cfg key w))
  ∧ (∀ key (data : J), returns (s3_write_json cfg key data w))
  ∧ (∀ key local_path, returns (s3_download_file cfg key local_path w))
  ∧ (∀ local_path key, returns (s3_upload_file cfg local_path key w))
  ∧ (∀ key, returns (s3_delete_object cfg key w)).
Proof.
  repeat apply conj; intros; unfold_run; settle.
Qed.

Lemma parse_s3_last_modified_returns to_millis value :
  ∃ r, parse_s3_last_modified to_millis value = Returned r.
Proof.
  unfold parse_s3_last_modified. destruct value as [v|]; [|eauto].
  destruct (to_millis v); eauto.
Qed.

End Totality.

(** ** Runs on the in-memory client *)

Lemma ensure_local_file_cases_witness :
  ensure_local_file cfg_s3 "/srv/cache/a.json" "deepwiki/a" w_cached
  = (Returned true, w_cached)
  ∧ ensure_local_file cfg_local "/srv/cache/a.json" "deepwiki/a" w_fresh
    = (Returned false, w_fresh)
  ∧ fst (ensure_local_file cfg_s3 "/srv/cache/a.json" "deepwiki/a" w_fresh)
    = Returned true
  ∧ fst (ensure_local_file cfg_s3 "/srv/cache/b.json" "deepwiki/b" w_fresh)
    = Returned false.
Proof.
  repeat apply conj.
  - apply (ensure_local_file_cases cfg_s3). vm_compute. reflexivity.
  - apply (ensure_local_file_cases cfg_local); vm_compute; reflexivity.
  - destruct (ensure_local_file_cases cfg_s3 "/srv/cache/a.json" "deepwiki/a"
                w_fresh) as (_ & _ & Hfound & _).
    rewrite (Hfound eq_refl eq_refl (remote w_fresh) eq_refl).
    vm_compute. reflexivity.
  - destruct (ensure_local_file_cases cfg_s3 "/srv/cache/b.json" "deepwiki/b"
                w_fresh) as (_ & _ & _ & Hmissing).
    rewrite (Hmissing eq_refl eq_refl (Some "404") (remote w_fresh)
               eq_refl eq_refl).
    reflexivity.
Defined.

Lemma s3_list_objects_all_pages_witness :
  (∃ items,
     fst (s3_list_objects cfg_s3 "deepwiki/" w_listing) = Returned items
     ∧ Forall2 item_matches
         (listed (Mock.listing "deepwiki/" (remote w_listing))) items
     ∧ length items = 3
     ∧ length (Mock.listing "deepwiki/" (remote w_listing)) = 2)
  ∧ s3_list_objects cfg_local "deepwiki/" w_listing = (Returned [], w_listing).
Proof.
  destruct (s3_list_objects_all_pages cfg_s3 "deepwiki/" w_listing)
    as [Hon _].
  destruct (s3_list_objects_all_pages cfg_local "deepwiki/" w_listing)
    as [_ Hoff].
  split; [|apply Hoff; vm_compute; reflexivity].
  destruct (Hon eq_refl (Mock.listing "deepwiki/" (remote w_listing))
              (remote w_listing) eq_refl) as (items & Hrun & Hall).
  - vm_compute. repeat (constructor; [eexists; reflexivity|]). constructor.
  - exists items. rewrite Hrun. split; [reflexivity|]. split; [exact Hall|].
    split; [|vm_compute; reflexivity].
    rewrite <- (Forall2_length _ _ _ Hall). vm_compute. reflexivity.
Defined.

Lemma s3_download_file_cases_witness :
  OsPath.isdir
    (fs (snd (s3_download_file cfg_s3 "deepwiki/a" "/srv/cache/a.json" w_fresh)))
    "/srv/cache" = true
  ∧ fst (s3_download_file cfg_s3 "deepwiki/a" "/srv/cache/a.json" w_fresh)
    = Returned true
  ∧ s3_download_file cfg_s3 "deepwiki/a" "/srv/cache/a.json" w_denied
    = (Returned false,
       after_error
         (after_call
            (with_fs w_denied
               (list_to_map [("/", Dir); ("/srv", Dir); ("/srv/cache", Dir)]))
            (DownloadFile (Some "wiki-bucket") "deepwiki/a" "/srv/cache/a.json")
            (remote w_denied))
         "S3 download_file failed for %s: %s" "deepwiki/a"
         (ClientError (Some "AccessDenied"))).
Proof.
  destruct (s3_download_file_cases cfg_s3 "deepwiki/a" "/srv/cache/a.json"
              w_fresh eq_refl) as [_ Hmade].
  destruct (Hmade _ eq_refl) as (_ & Hwritten & _).
  rewrite (Hwritten "{}" (remote w_fresh) _ eq_refl eq_refl).
  split; [vm_compute; reflexivity|]. split; [reflexivity|].
  destruct (s3_download_file_cases cfg_s3 "deepwiki/a" "/srv/cache/a.json"
              w_denied eq_refl) as [_ Hmade'].
  destruct (Hmade' _ eq_refl) as (_ & _ & _ & Herror & _).
  rewrite (Herror _ (remote w_denied) eq_refl).
  - vm_compute. reflexivity.
  - intros code [= <-]. reflexivity.
Defined.

Lemma s3_upload_file_cases_witness :
  s3_upload_file cfg_s3 "/srv/cache/b.json" "deepwiki/b" w_cached
  = (Returned false, w_cached)
  ∧ fst (s3_upload_file cfg_s3 "/srv/cache/a.json" "deepwiki/b" w_cached)
    = Returned true
  ∧ fst (s3_upload_file cfg_s3 "/srv/cache" "deepwiki/b" w_cached)
    = Returned false.
Proof.
  destruct (s3_upload_file_cases cfg_s3 "/srv/cache/b.json" "deepwiki/b"
              w_cached eq_refl) as (Hmissing & _).
  destruct (s3_upload_file_cases cfg_s3 "/srv/cache/a.json" "deepwiki/b"
              w_cached eq_refl) as (_ & Hsent & _).
  destruct (s3_upload_file_cases cfg_s3 "/srv/cache" "deepwiki/b"
              w_cached eq_refl) as (_ & _ & _ & Hunread).
  split; [apply Hmissing; vm_compute; reflexivity|]. split.
  - rewrite (Hsent "{}" _ eq_refl eq_refl). reflexivity.
  - rewrite (Hunread _ eq_refl eq_refl). reflexivity.
Defined.

Lemma s3_download_file_absent_leaves_parent_witness :
  ∃ w',
    s3_download_file cfg_s3 "deepwiki/b" "/srv/cache/b.json" w_fresh
    = (Returned false, w')
    ∧ OsPath.exists_ (fs w_fresh) "/srv/cache" = false
    ∧ OsPath.isdir (fs w') "/srv/cache" = true
    ∧ OsPath.isfile (fs w') "/srv/cache/b.json" = false
    ∧ log w' = [].
Proof.
  edestruct (s3_download_file_absent_leaves_parent cfg_s3 "deepwiki/b"
               "/srv/cache/b.json" w_fresh eq_refl)
    as (w' & Hrun & Hdir & Hfile & Hlog);
    [vm_compute; reflexivity ..|].
  exists w'. split; [exact Hrun|]. split; [vm_compute; reflexivity|].
  split; [exact Hdir|]. split; [rewrite Hfile; vm_compute; reflexivity|].
  exact Hlog.
Defined.

(** C10, as stated, fails: with a regular file in the way the parent
    directory cannot be created; the failure is logged, nothing is asked of
    the service, and the parent is still missing after the call. *)
Lemma s3_download_file_parent_blocked :
  let r := s3_download_file cfg_s3 "deepwiki/b" "/data/cache/b.json" w_blocked in
  s3_enabled cfg_s3 = true
  ∧ OsPath.exists_ (fs w_blocked) "/data/cache" = false
  ∧ Mock.objects (remote w_blocked) !! "deepwiki/b" = None
  ∧ fst r = Returned false
  ∧ OsPath.isdir (fs (snd r)) "/data/cache" = false
  ∧ calls (snd r) = [].
Proof. vm_compute. repeat split; reflexivity. Qed.

(** C1 fails on the code: [s3_object_exists] handles [ClientError] only,
    [s3_list_objects] handles nothing, and [ensure_local_file] calls the
    former; each lets the service's exception through. *)
Lemma unguarded_wrappers_raise :
  fst (s3_object_exists cfg_s3 "deepwiki/a" w_down)
  = Raised (OtherError "EndpointConnectionError")
  ∧ fst (ensure_local_file cfg_s3 "/srv/cache/a.json" "deepwiki/a" w_down)
    = Raised (OtherError "EndpointConnectionError")
  ∧ fst (s3_list_objects cfg_s3 "deepwiki/" w_denied)
    = Raised (ClientError (Some "AccessDenied"))
  ∧ fst (s3_list_objects cfg_s3 "deepwiki/" w_down)
    = Raised (OtherError "EndpointConnectionError").
Proof. vm_compute. repeat split; reflexivity. Qed.

(** C5 fails on the code for [s3_object_exists]: a failure that is not a
    [ClientError] is neither logged nor turned into false, while
    [s3_read_json] logs the same failure and returns nothing. *)
Lemma s3_object_exists_unlogged_failure :
  let r := s3_object_exists cfg_s3 "deepwiki/a" w_down in
  let r' := s3_read_json (J:=string) cfg_s3 "deepwiki/a" w_down in
  fst r = Raised (OtherError "EndpointConnectionError")
  ∧ log (snd r) = []
  ∧ fst r' = Returned None
  ∧ log (snd r')
    = [{| levelname := ERROR; msg := "S3 read_json failed for %s: %s";
          log_key := "deepwiki/a";
          log_exc := OtherError "EndpointConnectionError" |}].
Proof. vm_compute. repeat split; reflexivity. Qed.

(** * Further properties *)

(** ** Configuration read from the environment *)

Lemma lower_char_inv (a : ascii) (c : ascii) :
  Py.lower_char a = c →
  a = c ∨ (65 <= nat_of_ascii a <= 90 ∧ nat_of_ascii c = nat_of_ascii a + 32)%nat.
Proof.
  unfold Py.lower_char. intros <-.
  destruct ((65 <=? nat_of_ascii a)%nat && (nat_of_ascii a <=? 90)%nat) eqn:E;
    [|left; reflexivity].
  right. apply andb_true_iff in E as [E1 E2].
  apply Nat.leb_le in E1, E2. split; [lia|].
  apply nat_ascii_embedding. lia.
Qed.

Lemma lower_s3 (v : string) : Py.lower v = "s3" ↔ v = "s3" ∨ v = "S3".
Proof.
  split; [|intros [->| ->]; reflexivity].
  destruct v as [|a [|b [|c v]]]; cbn [Py.lower]; try discriminate.
  intros [= Ha Hb].
  apply lower_char_inv in Ha, Hb.
  assert (Hb' : b = "3"%char).
  { destruct Hb as [Hb|[Hr Hb]]; [exact Hb|].
    change (nat_of_ascii "3") with 51 in Hb. lia. }
  subst b.
  destruct Ha as [->|[_ Ha]]; [left; reflexivity|right].
  change (nat_of_ascii "s") with 115 in Ha.
  assert (nat_of_ascii a = 83) as Hn by lia.
  rewrite <- (ascii_nat_embedding a), Hn. reflexivity.
Qed.

Lemma empty_not_flag : "" ∉ ["1"; "true"; "yes"].
Proof.
  intros H. apply list_elem_of_In in H. cbn in H. intuition discriminate.
Qed.

(** X1: read from the environment, the store is enabled exactly when
    DEEPWIKI_S3_BUCKET is set to a non-empty string and either
    DEEPWIKI_STORAGE_BACKEND is "s3" in any letter case or
    DEEPWIKI_S3_ENABLED is, in any letter case, one of "1", "true",
    "yes".  In particular an environment that sets neither of the two
    selectors keeps the store disabled whatever the bucket. *)
Theorem s3_enabled_of_environ (sep : ascii) (environ : gmap string string) :
  s3_enabled (load_config sep environ) = true ↔
  (∃ b, environ !! "DEEPWIKI_S3_BUCKET" = Some b ∧ b ≠ "")
  ∧ (environ !! "DEEPWIKI_STORAGE_BACKEND" = Some "s3"
     ∨ environ !! "DEEPWIKI_STORAGE_BACKEND" = Some "S3"
     ∨ ∃ v, environ !! "DEEPWIKI_S3_ENABLED" = Some v
            ∧ Py.lower v ∈ ["1"; "true"; "yes"]).
Proof.
  unfold s3_enabled, bucket_set, load_config, environ_get, is_truthy_flag.
  cbn [S3_BUCKET STORAGE_BACKEND S3_ENABLED_ENV].
  rewrite andb_true_iff, orb_true_iff, !bool_decide_eq_true.
  f_equiv.
  - destruct (environ !! "DEEPWIKI_S3_BUCKET") as [[|a b]|]; cbn.
    + split; [discriminate|]. intros (b & [= <-] & Hne). congruence.
    + split; [|reflexivity]. intros _. eexists. split; [reflexivity|discriminate].
    + split; [discriminate|]. intros (b & [=] & _).
  - destruct (environ !! "DEEPWIKI_STORAGE_BACKEND") as [backend|]; cbn [from_option id].
    + rewrite lower_s3.
      destruct (environ !! "DEEPWIKI_S3_ENABLED") as [flag|]; cbn [from_option id].
      * split.
        -- intros [[->| ->]|Hflag]; eauto.
        -- intros [[= ->]|[[= ->]|(v & [= <-] & Hv)]]; auto.
      * split.
        -- intros [[->| ->]|Hflag]; eauto.
           destruct (empty_not_flag Hflag).
        -- intros [[= ->]|[[= ->]|(v & [=] & _)]]; auto.
    + destruct (environ !! "DEEPWIKI_S3_ENABLED") as [flag|]; cbn.
      * split.
        -- intros [[=]|Hflag]. eauto.
        -- intros [[=]|[[=]|(v & [= <-] & Hv)]]. auto.
      * split.
        -- intros [[=]|Hflag]. destruct (empty_not_flag Hflag).
        -- intros [[=]|[[=]|(v & [=] & _)]].
Qed.

(** ** More on the key builder *)

Lemma append_assoc (a b c : string) : (a +:+ b) +:+ c = a +:+ b +:+ c.
Proof.
  induction a as [|x a IH]; [reflexivity|].
  change (String x ((a +:+ b) +:+ c) = String x (a +:+ b +:+ c)).
  rewrite IH. reflexivity.
Qed.

Lemma prefix_empty (b : string) : String.prefix "" b = true.
Proof. destruct b; reflexivity. Qed.

Lemma prefix_append (a b : string) : String.prefix a (a +:+ b) = true.
Proof.
  induction a as [|x a IH]; [apply prefix_empty|].
  change (String x a +:+ b) with (String x (a +:+ b)). cbn [String.prefix].
  destruct (ascii_dec x x); [exact IH|congruence].
Qed.


Lemma lstrip_fixed c s : Py.startswith c s = false → Py.lstrip c s = s.
Proof. destruct s as [|a t]; [reflexivity|]. cbn. intros ->. reflexivity. Qed.

Lemma rstrip_fixed c s : Py.endswith c s = false → Py.rstrip c s = s.
Proof.
  induction s as [|a t IH]; [reflexivity|]. rewrite endswith_cons.
  cbn [Py.rstrip]. destruct t as [|b t].
  - cbn. intros ->. reflexivity.
  - cbn [Py.truthy]. intros H. rewrite (IH H). reflexivity.
Qed.

Lemma strip_fixed s : tidy s → Py.strip "/" s = s.
Proof.
  intros (_ & Hs & He). unfold Py.strip.
  rewrite (rstrip_fixed _ _ He). apply lstrip_fixed, Hs.
Qed.

Lemma replace_fixed old new s :
  contains old s = false ∨ old = new → Py.replace old new s = s.
Proof.
  intros H. induction s as [|a t IH]; [reflexivity|]. cbn [Py.replace].
  destruct H as [H| ->].
  - cbn in H. apply orb_false_iff in H as [Ha Ht].
    rewrite Ha, IH; [reflexivity|left; exact Ht].
  - rewrite IH; [|right; reflexivity].
    destruct (Ascii.eqb_spec a new) as [->|]; reflexivity.
Qed.

Lemma contains_edges c s :
  contains c s = false →
  Py.startswith c s = false ∧ Py.endswith c s = false.
Proof.
  induction s as [|a t IH]; [split; reflexivity|].
  cbn [contains]. intros [Ha Ht]%orb_false_iff. split; [exact Ha|].
  rewrite endswith_cons. destruct (IH Ht) as [_ ->].
  destruct (Py.truthy t); [reflexivity|exact Ha].
Qed.

Lemma cleaned_app cfg ps qs :
  cleaned cfg (ps ++ qs) = cleaned cfg ps ++ cleaned cfg qs.
Proof. unfold cleaned. rewrite map_app, List.filter_app. reflexivity. Qed.

Lemma cleaned_blank cfg s :
  Py.all_char "/" (Py.replace (os_sep cfg) "/" s) = true → cleaned cfg [s] = [].
Proof.
  intros H. unfold cleaned, clean_part. cbn [map List.filter].
  rewrite (strip_all_char _ _ H). reflexivity.
Qed.

(** Segments that are already clean pass through the cleaning as they
    are. *)
Lemma cleaned_fixed cfg parts :
  Forall (λ p, tidy p
               ∧ (contains (os_sep cfg) p = false ∨ os_sep cfg = "/"%char))
    parts →
  cleaned cfg parts = parts.
Proof.
  unfold cleaned. induction 1 as [|p parts [Ht Hsep] _ IH]; [reflexivity|].
  cbn [map List.filter].
  assert (Hp : clean_part cfg p = p).
  { unfold clean_part. rewrite (replace_fixed _ _ _ Hsep). apply strip_fixed, Ht. }
  rewrite Hp, IH. destruct Ht as (-> & _). reflexivity.
Qed.

Lemma join_truthy ps :
  ps ≠ [] → Forall tidy ps → Py.truthy (Py.join "/" ps) = true.
Proof. intros Hne Hall. apply (join_tidy ps Hne Hall). Qed.

Lemma join_app (sep : string) (ps qs : list string) :
  ps ≠ [] → qs ≠ [] →
  Py.join sep (ps ++ qs) = Py.join sep ps +:+ sep +:+ Py.join sep qs.
Proof.
  intros Hps Hqs. induction ps as [|p ps IH]; [congruence|].
  destruct ps as [|p' ps].
  - destruct qs; [congruence|reflexivity].
  - change (Py.join sep ((p :: p' :: ps) ++ qs))
      with (p +:+ sep +:+ Py.join sep ((p' :: ps) ++ qs)).
    rewrite IH by congruence.
    change (Py.join sep (p :: p' :: ps))
      with (p +:+ sep +:+ Py.join sep (p' :: ps)).
    rewrite !append_assoc. reflexivity.
Qed.

(** X2: a segment that is empty or made only of slashes and platform
    separators is ignored wherever it stands among the segments. *)
Theorem build_s3_key_skips_blank (cfg : Config) (ps qs : list string)
    (s : string) :
  Py.all_char "/" (Py.replace (os_sep cfg) "/" s) = true →
  build_s3_key cfg (ps ++ s :: qs) = build_s3_key cfg (ps ++ qs).
Proof.
  intros Hs. rewrite !build_s3_key_unfold, !cleaned_app.
  change (s :: qs) with ([s] ++ qs).
  rewrite cleaned_app, (cleaned_blank _ _ Hs). reflexivity.
Qed.

Lemma build_s3_key_skips_blank_witness :
  build_s3_key cfg_s3 ["wikicache"; "//"; "repo.json"]
  = build_s3_key cfg_s3 ["wikicache"; "repo.json"]
  ∧ build_s3_key cfg_s3 ["wikicache"; "repo.json"]
    = "deepwiki/wikicache/repo.json".
Proof.
  split; [|vm_compute; reflexivity].
  apply (build_s3_key_skips_blank cfg_s3 ["wikicache"] ["repo.json"] "//").
  vm_compute. reflexivity.
Defined.

(** X3: with a prefix that is not empty and has no slash at either end,
    segments that are not empty, have no slash at either end and hold no
    platform separator other than "/" are joined as they are under the
    prefix. *)
Theorem build_s3_key_verbatim (cfg : Config) (parts : list string) :
  tidy (S3_PREFIX cfg) →
  parts ≠ [] →
  Forall (λ p, tidy p
               ∧ (contains (os_sep cfg) p = false ∨ os_sep cfg = "/"%char))
    parts →
  build_s3_key cfg parts = S3_PREFIX cfg +:+ "/" +:+ Py.join "/" parts.
Proof.
  intros Hprefix Hne Hparts.
  rewrite build_s3_key_unfold, (cleaned_fixed _ _ Hparts),
    (strip_fixed _ Hprefix).
  unfold with_prefix. destruct Hprefix as (-> & _).
  rewrite join_truthy; [reflexivity|exact Hne|].
  eapply Forall_impl; [exact Hparts|]. intros p [Hp _]. exact Hp.
Qed.

Lemma build_s3_key_verbatim_witness :
  build_s3_key cfg_s3 ["wikicache"; "owner/repo"; "en.json"]
  = "deepwiki/wikicache/owner/repo/en.json".
Proof.
  rewrite (build_s3_key_verbatim cfg_s3).
  - vm_compute. reflexivity.
  - vm_compute. repeat split; reflexivity.
  - discriminate.
  - repeat (constructor;
            [split; [vm_compute; repeat split; reflexivity|right; reflexivity]|]).
    constructor.
Defined.

Lemma prefix_refl (a : string) : String.prefix a a = true.
Proof.
  induction a as [|x a IH]; [reflexivity|]. cbn [String.prefix].
  destruct (ascii_dec x x); [exact IH|congruence].
Qed.

Lemma split_plain c a : contains c a = false → Py.split c a = [a].
Proof.
  induction a as [|x a IH]; [reflexivity|].
  cbn [contains Py.split]. intros [Hx Ha]%orb_false_iff.
  rewrite Hx, (IH Ha). reflexivity.
Qed.

Lemma split_append c a b :
  contains c a = false →
  Py.split c (a +:+ String c b) = a :: Py.split c b.
Proof.
  induction a as [|x a IH].
  - intros _. change ("" +:+ String c b) with (String c b).
    cbn [Py.split]. rewrite Ascii.eqb_refl. reflexivity.
  - cbn [contains]. intros [Hx Ha]%orb_false_iff.
    change (String x a +:+ String c b) with (String x (a +:+ String c b)).
    cbn [Py.split]. rewrite Hx, (IH Ha). reflexivity.
Qed.

Lemma split_join c (l : list string) :
  l ≠ [] → Forall (λ p, contains c p = false) l →
  Py.split c (Py.join (String c "") l) = l.
Proof.
  induction l as [|p l IH]; [congruence|]. intros _ Hall.
  apply Forall_cons in Hall as [Hp Hl]. destruct l as [|q l].
  - apply split_plain, Hp.
  - change (Py.join (String c "") (p :: q :: l))
      with (p +:+ String c (Py.join (String c "") (q :: l))).
    rewrite (split_append _ _ _ Hp), IH; [reflexivity|congruence|exact Hl].
Qed.

Lemma plain_segment_tidy cfg p : plain_segment cfg p → tidy p.
Proof.
  intros (Ht & Hs & _). destruct (contains_edges _ _ Hs) as [? ?].
  repeat split; assumption.
Qed.

(** With a plain prefix, plain segments give the prefix and the segments
    joined with "/". *)
Lemma build_s3_key_plain cfg parts :
  Py.truthy (S3_PREFIX cfg) = true → contains "/" (S3_PREFIX cfg) = false →
  Forall (plain_segment cfg) parts →
  build_s3_key cfg parts = Py.join "/" (S3_PREFIX cfg :: parts).
Proof.
  intros Ht Hs Hparts.
  assert (Hprefix : tidy (S3_PREFIX cfg)).
  { destruct (contains_edges _ _ Hs). repeat split; assumption. }
  rewrite build_s3_key_unfold, (strip_fixed _ Hprefix), cleaned_fixed.
  - unfold with_prefix. rewrite Ht. destruct parts as [|p parts]; [reflexivity|].
    rewrite join_truthy; [reflexivity|congruence|].
    eapply Forall_impl; [exact Hparts|]. apply plain_segment_tidy.
  - eapply Forall_impl; [exact Hparts|]. intros p Hp.
    split; [apply (plain_segment_tidy cfg), Hp|left; apply Hp].
Qed.

(** X4: with a prefix that is not empty and holds no slash, and segments
    that are not empty and hold neither a slash nor a platform separator,
    splitting the key at "/" gives back the prefix followed by the
    segments; so two such lists of segments with the same key are the same
    list. *)
Theorem build_s3_key_split (cfg : Config) (parts : list string) :
  Py.truthy (S3_PREFIX cfg) = true →
  contains "/" (S3_PREFIX cfg) = false →
  Forall (plain_segment cfg) parts →
  Py.split "/" (build_s3_key cfg parts) = S3_PREFIX cfg :: parts
  ∧ ∀ parts',
      Forall (plain_segment cfg) parts' →
      build_s3_key cfg parts' = build_s3_key cfg parts → parts' = parts.
Proof.
  intros Ht Hs Hparts.
  assert (Hsplit : ∀ ps, Forall (plain_segment cfg) ps →
            Py.split "/" (build_s3_key cfg ps) = S3_PREFIX cfg :: ps).
  { intros ps Hps. rewrite (build_s3_key_plain _ _ Ht Hs Hps).
    apply split_join; [congruence|]. constructor; [exact Hs|].
    eapply Forall_impl; [exact Hps|]. intros p Hp. apply Hp. }
  split; [apply Hsplit, Hparts|].
  intros parts' Hparts' Hkey.
  pose proof (Hsplit _ Hparts') as H1. rewrite Hkey, (Hsplit _ Hparts) in H1.
  congruence.
Qed.

Lemma build_s3_key_split_witness :
  Py.split "/" (build_s3_key cfg_s3 ["wikicache"; "repo"; "en.json"])
  = ["deepwiki"; "wikicache"; "repo"; "en.json"].
Proof.
  apply (build_s3_key_split cfg_s3 ["wikicache"; "repo"; "en.json"]).
  - vm_compute. reflexivity.
  - vm_compute. reflexivity.
  - repeat (constructor; [vm_compute; repeat split; reflexivity|]).
    constructor.
Defined.

Lemma build_s3_key_tidy_fixed cfg ps :
  Py.strip "/" (build_s3_key cfg ps) = build_s3_key cfg ps.
Proof.
  destruct (build_s3_key_edges cfg ps) as [->|H]; [reflexivity|].
  apply strip_fixed, H.
Qed.

Lemma with_prefix_nested prefix a b :
  (a = "" ∨ tidy a) → (b = "" ∨ tidy b) →
  with_prefix prefix (with_prefix a b) = with_prefix (with_prefix prefix a) b.
Proof.
  unfold with_prefix.
  intros [->|(Ta & _)] [->|(Tb & _)]; cbn [Py.truthy];
    rewrite ?Ta, ?Tb; destruct (Py.truthy prefix) eqn:Tp;
    rewrite ?truthy_app, ?Tp, ?Ta, ?Tb; cbn [orb Py.truthy];
    rewrite ?Ta, ?Tb, ?Tp; try reflexivity.
  rewrite !append_assoc. reflexivity.
Qed.

Lemma join_cleaned_app cfg ps qs :
  Py.join "/" (cleaned cfg (ps ++ qs))
  = with_prefix (Py.join "/" (cleaned cfg ps)) (Py.join "/" (cleaned cfg qs)).
Proof.
  rewrite cleaned_app. unfold with_prefix.
  destruct (cleaned cfg ps) as [|a A] eqn:EA.
  - cbn [app Py.join Py.truthy]. reflexivity.
  - pose proof (cleaned_tidy cfg ps) as HA. rewrite EA in HA.
    destruct (cleaned cfg qs) as [|b B] eqn:EB.
    + rewrite app_nil_r. change (Py.join "/" []) with "".
      cbn [Py.truthy]. rewrite join_truthy; [reflexivity|congruence|exact HA].
    + rewrite join_app by congruence.
      pose proof (cleaned_tidy cfg qs) as HB. rewrite EB in HB.
      rewrite (join_truthy (a :: A)), (join_truthy (b :: B));
        [reflexivity|congruence|assumption|congruence|assumption].
Qed.

(** X5: building a key from more segments stays under the key of the
    first ones: the shorter key is a prefix of the longer, and the longer is
    what the builder gives for the further segments when the shorter key is
    the configured prefix. *)
Theorem build_s3_key_extends (cfg : Config) (ps qs : list string) :
  String.prefix (build_s3_key cfg ps) (build_s3_key cfg (ps ++ qs)) = true
  ∧ build_s3_key cfg (ps ++ qs)
    = build_s3_key (set_prefix cfg (build_s3_key cfg ps)) qs.
Proof.
  assert (Hnest : build_s3_key cfg (ps ++ qs)
                  = with_prefix (build_s3_key cfg ps)
                      (Py.join "/" (cleaned cfg qs))).
  { rewrite !build_s3_key_unfold, join_cleaned_app.
    apply with_prefix_nested; [apply join_cleaned..]. }
  split.
  - rewrite Hnest. unfold with_prefix.
    destruct (Py.truthy (build_s3_key cfg ps)) eqn:Tk.
    + destruct (Py.truthy (Py.join "/" (cleaned cfg qs)));
        [apply prefix_append|apply prefix_refl].
    + destruct (build_s3_key cfg ps); [apply prefix_empty|discriminate].
  - rewrite Hnest, (build_s3_key_unfold (set_prefix _ _)).
    cbn [S3_PREFIX set_prefix]. rewrite build_s3_key_tidy_fixed.
    reflexivity.
Qed.

(** ** What a call of a wrapper leaves behind *)

(** Takes apart a run [H : wrapper ... w = (r, w')] into its branches. *)
Ltac run_cases H :=
  unfold_run;
  repeat first
    [ progress cbn in H
    | match type of H with
      | context [match ?x with _ => _ end] =>
          lazymatch x with
          | context [match _ with _ => _ end] => fail
          | _ => destruct x eqn:?
          end
      end ];
  injection H as <- <-.

Ltac solve_calls :=
  unfold calls_at_most, calls_added; cbn;
  first
    [ exists []; split; [symmetry; apply app_nil_r|];
      split; [cbn; lia|constructor]
    | eexists [_]; split; [reflexivity|];
      split; [cbn; lia|repeat constructor]
    | eexists [_; _]; split; [rewrite <- app_assoc; reflexivity|];
      split; [cbn; lia|repeat constructor] ].

Ltac solve_logs :=
  unfold logs_at_most_one, log_added; cbn;
  first
    [ exists []; split; [symmetry; apply app_nil_r|];
      split; [cbn; lia|]; split; [constructor|intros; reflexivity]
    | eexists [_]; split; [reflexivity|];
      split; [cbn; lia|];
      split; [repeat constructor|];
      intros Hs; first [discriminate|destruct Hs; discriminate] ].

Section Footprint.

Context {R : Type} `{!S3Client R} {J : Type} `{!JsonCodec J}.
Variable cfg : Config.

(** The ways a run of [ensure_local_file] can go. *)
Lemma ensure_local_file_steps local_path key (w : World R) r w' :
  ensure_local_file cfg local_path key w = (r, w') →
  (OsPath.exists_ (fs w) local_path = true ∧ r = Returned true ∧ w' = w)
  ∨ (OsPath.exists_ (fs w) local_path = false ∧ s3_enabled cfg = false
     ∧ r = Returned false ∧ w' = w)
  ∨ (OsPath.exists_ (fs w) local_path = false ∧ s3_enabled cfg = true
     ∧ ((∃ e, s3_object_exists cfg key w = (Raised e, w') ∧ r = Raised e)
        ∨ (s3_object_exists cfg key w = (Returned false, w')
           ∧ r = Returned false)
        ∨ (∃ w1, s3_object_exists cfg key w = (Returned true, w1)
                 ∧ s3_download_file cfg key local_path w1 = (r, w')))).
Proof.
  unfold ensure_local_file, os_path_exists, mbind, M_bind, mret, M_ret.
  destruct (OsPath.exists_ (fs w) local_path);
    [intros [= <- <-]; left; auto|].
  destruct (s3_enabled cfg); cbn [negb];
    [|intros [= <- <-]; right; left; auto].
  destruct (s3_object_exists cfg key w) as [[[]|e] w1] eqn:E; cbn [negb].
  - intros H. right. right. repeat (split; [reflexivity|]). eauto.
  - intros [= <- <-]. right. right. repeat (split; [reflexivity|]). auto.
  - intros [= <- <-]. right. right. repeat (split; [reflexivity|]). eauto.
Qed.

Lemma calls_at_most_refl n (w : World R) : calls_at_most cfg n w w.
Proof.
  exists []. split; [symmetry; apply app_nil_r|]. split; [cbn; lia|constructor].
Qed.

Lemma calls_at_most_trans n m (w w1 w2 : World R) :
  calls_at_most cfg n w w1 → calls_at_most cfg m w1 w2 →
  calls_at_most cfg (n + m) w w2.
Proof.
  intros (l1 & H1 & L1 & B1) (l2 & H2 & L2 & B2). exists (l1 ++ l2).
  unfold calls_added in *. rewrite H2, H1, <- app_assoc.
  split; [reflexivity|]. split; [rewrite length_app; lia|].
  apply Forall_app; split; assumption.
Qed.

Lemma s3_object_exists_calls key (w : World R) r w' :
  s3_object_exists cfg key w = (r, w') → calls_at_most cfg 1 w w'.
Proof. intros H. run_cases H; solve_calls. Qed.

Lemma s3_download_file_calls key local_path (w : World R) r w' :
  s3_download_file cfg key local_path w = (r, w') → calls_at_most cfg 1 w w'.
Proof. intros H. run_cases H; solve_calls. Qed.

(** X7: no wrapper asks the service twice.  Each call of a wrapper adds at
    most one call to the client's record, [ensure_local_file] at most two,
    always on the configured bucket, and never removes one. *)
Theorem wrappers_call_once (w w' : World R) :
  (∀ key r, s3_object_exists cfg key w = (r, w') → calls_at_most cfg 1 w w')
  ∧ (∀ key r, s3_read_json (J:=J) cfg key w = (r, w') →
       calls_at_most cfg 1 w w')
  ∧ (∀ key (data : J) r, s3_write_json cfg key data w = (r, w') →
       calls_at_most cfg 1 w w')
  ∧ (∀ key local_path r, s3_download_file cfg key local_path w = (r, w') →
       calls_at_most cfg 1 w w')
  ∧ (∀ local_path key r, s3_upload_file cfg local_path key w = (r, w') →
       calls_at_most cfg 1 w w')
  ∧ (∀ key r, s3_delete_object cfg key w = (r, w') →
       calls_at_most cfg 1 w w')
  ∧ (∀ prefix r, s3_list_objects cfg prefix w = (r, w') →
       calls_at_most cfg 1 w w')
  ∧ (∀ local_path key r, ensure_local_file cfg local_path key w = (r, w') →
       calls_at_most cfg 2 w w').
Proof.
  repeat apply conj; intros until 1;
    try (match goal with H : _ = (_, _) |- _ => run_cases H end;
         solve_calls; fail).
  apply ensure_local_file_steps in H
    as [(_ & _ & ->)|[(_ & _ & _ & ->)|(_ & _ & [(e & H & _)|[[H _]|(w1 & H1 & H2)]])]].
  - apply calls_at_most_refl.
  - apply calls_at_most_refl.
  - apply (calls_at_most_trans 1 1 _ _ _ (s3_object_exists_calls _ _ _ _ H)),
      calls_at_most_refl.
  - apply (calls_at_most_trans 1 1 _ _ _ (s3_object_exists_calls _ _ _ _ H)),
      calls_at_most_refl.
  - apply (calls_at_most_trans 1 1 _ _ _ (s3_object_exists_calls _ _ _ _ H1)),
      (s3_download_file_calls _ _ _ _ _ H2).
Qed.

Lemma s3_object_exists_logs key (w : World R) r w' :
  s3_object_exists cfg key w = (r, w') →
  logs_at_most_one key w w' (r = Returned true).
Proof. intros H. run_cases H; solve_logs. Qed.

Lemma s3_download_file_logs key local_path (w : World R) r w' :
  s3_download_file cfg key local_path w = (r, w') →
  logs_at_most_one key w w' (r = Returned true).
Proof. intros H. run_cases H; solve_logs. Qed.

Lemma logs_at_most_one_refl key (w : World R) (success : Prop) :
  logs_at_most_one key w w success.
Proof.
  exists []. split; [symmetry; apply app_nil_r|]. split; [cbn; lia|].
  split; [constructor|intros; reflexivity].
Qed.

(** X8: what the wrappers log.  A call logs at most one record, always at
    error level and about the key it was given, and logs nothing when it
    reports success (true, or a document); [s3_list_objects] never logs. *)
Theorem wrappers_log_discipline (w w' : World R) :
  (∀ key r, s3_object_exists cfg key w = (r, w') →
     logs_at_most_one key w w' (r = Returned true))
  ∧ (∀ key r, s3_read_json (J:=J) cfg key w = (r, w') →
       logs_at_most_one key w w' (∃ doc, r = Returned (Some doc)))
  ∧ (∀ key (data : J) r, s3_write_json cfg key data w = (r, w') →
       logs_at_most_one key w w' (r = Returned true))
  ∧ (∀ key local_path r, s3_download_file cfg key local_path w = (r, w') →
       logs_at_most_one key w w' (r = Returned true))
  ∧ (∀ local_path key r, s3_upload_file cfg local_path key w = (r, w') →
       logs_at_most_one key w w' (r = Returned true))
  ∧ (∀ key r, s3_delete_object cfg key w = (r, w') →
       logs_at_most_one key w w' (r = Returned true))
  ∧ (∀ prefix r, s3_list_objects cfg prefix w = (r, w') → log w' = log w)
  ∧ (∀ local_path key r, ensure_local_file cfg local_path key w = (r, w') →
       logs_at_most_one key w w' (r = Returned true)).
Proof.
  repeat apply conj; intros until 1;
    try (match goal with H : _ = (_, _) |- _ => run_cases H end;
         first [solve_logs|reflexivity]; fail).
  apply ensure_local_file_steps in H
    as [(_ & _ & ->)|[(_ & _ & _ & ->)|(_ & _ & [(e & H & ->)|[[H ->]|(w1 & H1 & H2)]])]].
  - apply logs_at_most_one_refl.
  - apply logs_at_most_one_refl.
  - destruct (s3_object_exists_logs _ _ _ _ H) as (l & Hl & Hn & Hall & _).
    exists l. repeat split; try assumption. discriminate.
  - destruct (s3_object_exists_logs _ _ _ _ H) as (l & Hl & Hn & Hall & _).
    exists l. repeat split; try assumption. discriminate.
  - destruct (s3_object_exists_logs _ _ _ _ H1) as (l & Hl & _ & _ & Hquiet).
    rewrite (Hquiet eq_refl) in Hl. unfold log_added in Hl.
    rewrite app_nil_r in Hl.
    destruct (s3_download_file_logs _ _ _ _ _ H2) as (l2 & Hl2 & ?).
    exists l2. unfold log_added in *. rewrite <- Hl. auto.
Qed.

(** X9: only [s3_download_file] touches the local filesystem.  Whatever
    the service answers, the other six wrappers leave every local path as
    it was; in particular an upload never alters its source. *)
Theorem wrappers_leave_files (w w' : World R) :
  (∀ key r, s3_object_exists cfg key w = (r, w') → fs w' = fs w)
  ∧ (∀ key r, s3_read_json (J:=J) cfg key w = (r, w') → fs w' = fs w)
  ∧ (∀ key (data : J) r, s3_write_json cfg key data w = (r, w') →
       fs w' = fs w)
  ∧ (∀ local_path key r, s3_upload_file cfg local_path key w = (r, w') →
       fs w' = fs w)
  ∧ (∀ key r, s3_delete_object cfg key w = (r, w') → fs w' = fs w)
  ∧ (∀ prefix r, s3_list_objects cfg prefix w = (r, w') → fs w' = fs w).
Proof.
  repeat apply conj; intros until 1;
    match goal with H : _ = (_, _) |- _ => run_cases H end; reflexivity.
Qed.

End Footprint.

(** ** What a reported success means *)

(** Takes apart a run whose result is known. *)
Ltac known_run H :=
  unfold_run;
  repeat first
    [ progress cbn in H
    | match type of H with
      | context [match ?x with _ => _ end] =>
          lazymatch x with
          | context [match _ with _ => _ end] => fail
          | _ => destruct x eqn:?
          end
      end ];
  try discriminate; inversion H; subst; clear H;
  repeat match goal with u : unit |- _ => destruct u end.

(** The guard of a run that went past it. *)
Ltac enabled_now :=
  match goal with
  | Hb : negb (s3_enabled _) = false |- _ =>
      apply negb_false_iff in Hb; exact Hb
  end.

Section Success.

Context {R : Type} `{!S3Client R} {J : Type} `{!JsonCodec J}.
Variable cfg : Config.

Lemma s3_object_exists_true_inv key (w w' : World R) :
  s3_object_exists cfg key w = (Returned true, w') →
  s3_enabled cfg = true
  ∧ ∃ s, head_object (S3_BUCKET cfg) key (remote w) = (Returned (), s)
         ∧ w' = after_call w (HeadObject (S3_BUCKET cfg) key) s.
Proof. intros H. known_run H. split; [enabled_now|eauto]. Qed.

Lemma s3_read_json_some_inv key (w w' : World R) (doc : J) :
  s3_read_json cfg key w = (Returned (Some doc), w') →
  s3_enabled cfg = true
  ∧ ∃ payload s,
      get_object (S3_BUCKET cfg) key (remote w) = (Returned payload, s)
      ∧ json_loads payload = Returned doc
      ∧ w' = after_call w (GetObject (S3_BUCKET cfg) key) s.
Proof. intros H. known_run H. split; [enabled_now|eauto]. Qed.

Lemma s3_write_json_true_inv key (data : J) (w w' : World R) :
  s3_write_json cfg key data w = (Returned true, w') →
  s3_enabled cfg = true
  ∧ ∃ payload s,
      json_dumps data = Returned payload
      ∧ put_object (S3_BUCKET cfg) key payload (remote w) = (Returned (), s)
      ∧ w' = after_call w (PutObject (S3_BUCKET cfg) key payload) s.
Proof. intros H. known_run H. split; [enabled_now|eauto]. Qed.

Lemma s3_delete_object_true_inv key (w w' : World R) :
  s3_delete_object cfg key w = (Returned true, w') →
  s3_enabled cfg = true
  ∧ ∃ s, delete_object (S3_BUCKET cfg) key (remote w) = (Returned (), s)
         ∧ w' = after_call w (DeleteObject (S3_BUCKET cfg) key) s.
Proof. intros H. known_run H. split; [enabled_now|eauto]. Qed.

Lemma s3_upload_file_true_inv local_path key (w w' : World R) :
  s3_upload_file cfg local_path key w = (Returned true, w') →
  s3_enabled cfg = true
  ∧ ∃ content s,
      fs w !! local_path = Some (File content)
      ∧ upload_object (S3_BUCKET cfg) key content (remote w) = (Returned (), s)
      ∧ w' = after_call w (UploadFile local_path (S3_BUCKET cfg) key) s.
Proof.
  intros H. known_run H. split; [enabled_now|]. unfold read_file in *.
  destruct (fs w !! local_path) as [[content|]|] eqn:E; try discriminate.
  match goal with Hc : Returned _ = Returned _ |- _ => injection Hc as <- end.
  exists content. eexists. repeat split; eassumption.
Qed.

Lemma s3_download_file_true_inv key local_path (w w' : World R) :
  s3_download_file cfg key local_path w = (Returned true, w') →
  s3_enabled cfg = true
  ∧ ∃ content s,
      download_object (S3_BUCKET cfg) key (remote w) = (Returned content, s)
      ∧ fs w' !! local_path = Some (File content)
      ∧ remote w' = s.
Proof.
  intros H. known_run H. split; [enabled_now|].
  match goal with
  | Hw : write_file _ _ ?c _ = Returned _ |- _ =>
      exists c; eexists; split; [first [eassumption|reflexivity]|];
      split; [|reflexivity];
      unfold write_file in Hw;
      repeat match type of Hw with
             | (if ?b then _ else _) = _ => destruct b
             end; inversion Hw; cbn; apply lookup_insert_eq
  end.
Qed.

(** X10: a wrapper reports success only after the service did the work.
    True from [s3_object_exists], [s3_write_json], [s3_upload_file] or
    [s3_delete_object], and a document from [s3_read_json], mean that the
    store is enabled and the one client call returned normally; true from
    [s3_download_file] means moreover that the destination now holds the
    bytes the service sent. *)
Theorem success_means_done (w w' : World R) :
  (∀ key, s3_object_exists cfg key w = (Returned true, w') →
     s3_enabled cfg = true
     ∧ ∃ s, head_object (S3_BUCKET cfg) key (remote w) = (Returned (), s))
  ∧ (∀ key (doc : J), s3_read_json cfg key w = (Returned (Some doc), w') →
       s3_enabled cfg = true
       ∧ ∃ payload s,
           get_object (S3_BUCKET cfg) key (remote w) = (Returned payload, s)
           ∧ json_loads payload = Returned doc)
  ∧ (∀ key (data : J), s3_write_json cfg key data w = (Returned true, w') →
       s3_enabled cfg = true
       ∧ ∃ payload s,
           json_dumps data = Returned payload
           ∧ put_object (S3_BUCKET cfg) key payload (remote w)
             = (Returned (), s))
  ∧ (∀ key local_path,
       s3_download_file cfg key local_path w = (Returned true, w') →
       s3_enabled cfg = true
       ∧ ∃ content s,
           download_object (S3_BUCKET cfg) key (remote w)
           = (Returned content, s)
           ∧ fs w' !! local_path = Some (File content))
  ∧ (∀ local_path key,
       s3_upload_file cfg local_path key w = (Returned true, w') →
       s3_enabled cfg = true
       ∧ ∃ content s,
           fs w !! local_path = Some (File content)
           ∧ upload_object (S3_BUCKET cfg) key content (remote w)
             = (Returned (), s))
  ∧ (∀ key, s3_delete_object cfg key w = (Returned true, w') →
       s3_enabled cfg = true
       ∧ ∃ s, delete_object (S3_BUCKET cfg) key (remote w) = (Returned (), s)).
Proof.
  repeat apply conj.
  - intros key H. apply s3_object_exists_true_inv in H as (? & s & ? & _). eauto.
  - intros key doc H.
    apply s3_read_json_some_inv in H as (? & p & s & ? & ? & _). eauto.
  - intros key data H.
    apply s3_write_json_true_inv in H as (? & p & s & ? & ? & _). eauto.
  - intros key local_path H.
    apply s3_download_file_true_inv in H as (? & c & s & ? & ? & _). eauto.
  - intros local_path key H.
    apply s3_upload_file_true_inv in H as (? & c & s & ? & ? & _). eauto.
  - intros key H. apply s3_delete_object_true_inv in H as (? & s & ? & _). eauto.
Qed.

(** X11: once [ensure_local_file] has returned true the local path exists,
    so asking again, for this or any other key, returns true at once and
    changes nothing: no call on the client, no log record. *)
Theorem ensure_local_file_settles (local_path key : string) (w w' : World R) :
  ensure_local_file cfg local_path key w = (Returned true, w') →
  OsPath.exists_ (fs w') local_path = true
  ∧ ∀ key', ensure_local_file cfg local_path key' w' = (Returned true, w').
Proof.
  intros H.
  assert (Hpath : OsPath.exists_ (fs w') local_path = true).
  { apply ensure_local_file_steps in H
      as [(? & _ & ->)|[(_ & _ & [=] & _)|(_ & _ & [(e & _ & [=])|[[_ [=]]|(w1 & _ & H)]])]];
      [assumption|].
    apply s3_download_file_true_inv in H as (_ & c & s & _ & Hfile & _).
    unfold OsPath.exists_. rewrite Hfile. reflexivity. }
  split; [exact Hpath|]. intros key'.
  unfold ensure_local_file, os_path_exists, mbind, M_bind.
  rewrite Hpath. reflexivity.
Qed.

End Success.

(** ** The remaining wrappers, case by case *)

Section Cases.

Context {R : Type} `{!S3Client R} {J : Type} `{!JsonCodec J}.
Variable cfg : Config.

(** X12: the outcomes of [s3_read_json] on an enabled store.  A body that
    parses gives the document and logs nothing; "not found" gives nothing and
    logs nothing; another [ClientError] gives nothing and is logged as a
    failed "get_object"; any other exception of the service, and a body
    that does not parse, give nothing and are logged as a failed
    "read_json". *)
Theorem s3_read_json_cases (key : string) (w : World R) :
  s3_enabled cfg = true →
  let c := GetObject (S3_BUCKET cfg) key in
  (∀ payload s (doc : J),
     get_object (S3_BUCKET cfg) key (remote w) = (Returned payload, s) →
     json_loads payload = Returned doc →
     s3_read_json cfg key w = (Returned (Some doc), after_call w c s))
  ∧ (∀ code s,
       get_object (S3_BUCKET cfg) key (remote w)
       = (Raised (ClientError code), s) →
       is_not_found code = true →
       s3_read_json (J:=J) cfg key w = (Returned None, after_call w c s))
  ∧ (∀ code s,
       get_object (S3_BUCKET cfg) key (remote w)
       = (Raised (ClientError code), s) →
       is_not_found code = false →
       s3_read_json (J:=J) cfg key w
       = (Returned None,
          after_error (after_call w c s) "S3 get_object failed for %s: %s"
            key (ClientError code)))
  ∧ (∀ name s,
       get_object (S3_BUCKET cfg) key (remote w)
       = (Raised (OtherError name), s) →
       s3_read_json (J:=J) cfg key w
       = (Returned None,
          after_error (after_call w c s) "S3 read_json failed for %s: %s"
            key (OtherError name)))
  ∧ (∀ payload s name,
       get_object (S3_BUCKET cfg) key (remote w) = (Returned payload, s) →
       json_loads (J:=J) payload = Raised (OtherError name) →
       s3_read_json (J:=J) cfg key w
       = (Returned None,
          after_error (after_call w c s) "S3 read_json failed for %s: %s"
            key (OtherError name))).
Proof.
  intros Hon c. repeat apply conj; intros; unfold_run; rewrite Hon; cbn;
    repeat match goal with
           | Heq : _ = _ |- _ => rewrite Heq; cbn
           end; reflexivity.
Qed.

(** X13: the outcomes of [s3_write_json] and [s3_delete_object] on an
    enabled store.  A document that cannot be serialised is logged and gives
    false without anything being sent; otherwise the result is true when
    the one call returns, and any exception, "not found" included, is
    logged and gives false. *)
Theorem s3_write_and_delete_cases (key : string) (w : World R) :
  s3_enabled cfg = true →
  (∀ (data : J) e,
     json_dumps data = Raised e →
     s3_write_json cfg key data w
     = (Returned false,
        after_error w "S3 write_json failed for %s: %s" key e))
  ∧ (∀ (data : J) payload s,
       json_dumps data = Returned payload →
       put_object (S3_BUCKET cfg) key payload (remote w) = (Returned (), s) →
       s3_write_json cfg key data w
       = (Returned true,
          after_call w (PutObject (S3_BUCKET cfg) key payload) s))
  ∧ (∀ (data : J) payload e s,
       json_dumps data = Returned payload →
       put_object (S3_BUCKET cfg) key payload (remote w) = (Raised e, s) →
       s3_write_json cfg key data w
       = (Returned false,
          after_error (after_call w (PutObject (S3_BUCKET cfg) key payload) s)
            "S3 write_json failed for %s: %s" key e))
  ∧ (∀ s,
       delete_object (S3_BUCKET cfg) key (remote w) = (Returned (), s) →
       s3_delete_object cfg key w
       = (Returned true, after_call w (DeleteObject (S3_BUCKET cfg) key) s))
  ∧ (∀ e s,
       delete_object (S3_BUCKET cfg) key (remote w) = (Raised e, s) →
       s3_delete_object cfg key w
       = (Returned false,
          after_error (after_call w (DeleteObject (S3_BUCKET cfg) key) s)
            "S3 delete_object failed for %s: %s" key e)).
Proof.
  intros Hon. repeat apply conj; intros; unfold_run; rewrite Hon; cbn;
    repeat match goal with
           | Heq : _ = _ |- _ => rewrite Heq; cbn
           end; reflexivity.
Qed.

(** X14: what is written can be read back.  On a service that returns the
    body last put under a key, and for a document whose serialised form
    parses back to it, a [s3_write_json] that returned true is followed by
    a [s3_read_json] of the same key that returns the document and logs
    nothing. *)
Theorem write_then_read (key : string) (doc : J) (w w1 : World R) :
  keeps_objects (R:=R) →
  reads_back doc →
  s3_write_json cfg key doc w = (Returned true, w1) →
  ∃ w2, s3_read_json cfg key w1 = (Returned (Some doc), w2)
        ∧ log w2 = log w1.
Proof.
  intros Hstore Hcodec Hwrite.
  apply s3_write_json_true_inv in Hwrite
    as (Hon & payload & s & Hdump & Hput & ->).
  destruct (Hstore _ _ _ _ _ Hput) as [s' Hget].
  eexists. split.
  - apply (s3_read_json_parsed cfg key _ payload s' doc Hon);
      [exact Hget|apply Hcodec, Hdump].
  - reflexivity.
Qed.

End Cases.

(** ** Which calls cannot raise *)

Section Returning.

Context {R : Type} `{!S3Client R} {J : Type} `{!JsonCodec J}.
Variable cfg : Config.

Lemma s3_object_exists_returns key (w : World R) :
  (∀ name s, head_object (S3_BUCKET cfg) key (remote w)
             ≠ (Raised (OtherError name), s)) →
  returns (s3_object_exists cfg key w).
Proof.
  intros Hhead. unfold_run. destruct (negb (s3_enabled cfg)).
  - eexists _, _. reflexivity.
  - destruct (head_object (S3_BUCKET cfg) key (remote w))
      as [[[]|[code|name]] s] eqn:E; cbn.
    + eexists _, _. reflexivity.
    + destruct (is_not_found code); eexists _, _; reflexivity.
    + destruct (Hhead name s eq_refl).
Qed.

(** X6: where exceptions stop.  [s3_read_json], [s3_write_json],
    [s3_download_file], [s3_upload_file] and [s3_delete_object] return a
    value whatever the service, the codec and the filesystem do, and so
    does [parse_s3_last_modified] whatever the conversion does;
    [s3_object_exists] and [ensure_local_file] return a value whenever
    [head_object] raises nothing but a [ClientError]. *)
Theorem wrappers_that_return (w : World R) :
  (∀ key, returns (s3_read_json (J:=J) cfg key w))
  ∧ (∀ key (data : J), returns (s3_write_json cfg key data w))
  ∧ (∀ key local_path, returns (s3_download_file cfg key local_path w))
  ∧ (∀ local_path key, returns (s3_upload_file cfg local_path key w))
  ∧ (∀ key, returns (s3_delete_object cfg key w))
  ∧ (∀ to_millis value, ∃ r, parse_s3_last_modified to_millis value = Returned r)
  ∧ (∀ key,
       (∀ name s, head_object (S3_BUCKET cfg) key (remote w)
                  ≠ (Raised (OtherError name), s)) →
       returns (s3_object_exists cfg key w))
  ∧ (∀ local_path key,
       (∀ name s, head_object (S3_BUCKET cfg) key (remote w)
                  ≠ (Raised (OtherError name), s)) →
       returns (ensure_local_file cfg local_path key w)).
Proof.
  destruct (guarded_wrappers_return (J:=J) cfg w) as (H1 & H2 & H3 & H4 & H5).
  do 5 (split; [assumption|]).
  split; [intros; apply parse_s3_last_modified_returns|].
  split; [intros key Hhead; apply s3_object_exists_returns, Hhead|].
  intros local_path key Hhead.
  unfold ensure_local_file, os_path_exists, mbind, M_bind, mret, M_ret.
  destruct (OsPath.exists_ (fs w) local_path); [eexists _, _; reflexivity|].
  destruct (negb (s3_enabled cfg)); [eexists _, _; reflexivity|].
  destruct (s3_object_exists_returns key w Hhead) as (found & w1 & ->).
  destruct found; cbn [negb]; [|eexists _, _; reflexivity].
  apply (guarded_wrappers_return (J:=J) cfg w1).
Qed.

End Returning.

(** ** Listings that fail *)

Section ListingFailures.

Context {R : Type} `{!S3Client R}.
Variable cfg : Config.

Lemma append_entries_outcome entries : ∀ items,
  (∃ items', append_entries items entries = Returned items')
  ∨ append_entries items entries = Raised (OtherError "KeyError").
Proof.
  induction entries as [|entry entries IH]; intros items; cbn [append_entries].
  - left. eauto.
  - unfold make_item. destruct (Key entry); [apply IH|right; reflexivity].
Qed.

Lemma append_entries_missing entries : ∀ items,
  Exists (λ e, Key e = None) entries →
  append_entries items entries = Raised (OtherError "KeyError").
Proof.
  induction entries as [|entry entries IH]; intros items Hex;
    [inversion Hex|].
  cbn [append_entries]. unfold make_item.
  destruct (Key entry) eqn:E; [|reflexivity].
  apply IH. inversion Hex; subst; [congruence|assumption].
Qed.

Lemma append_pages_missing pages : ∀ items,
  Exists (λ e, Key e = None) (listed pages) →
  append_pages items pages = Raised (OtherError "KeyError").
Proof.
  unfold listed. induction pages as [|page pages IH]; intros items Hex;
    [inversion Hex|].
  cbn [map concat] in Hex. cbn [append_pages]. fold (entries_of page).
  apply Exists_app in Hex as [Hex|Hex].
  - rewrite (append_entries_missing _ _ Hex). reflexivity.
  - destruct (append_entries_outcome (entries_of page) items)
      as [[items' ->]| ->]; [apply IH, Hex|reflexivity].
Qed.

(** X15: listings that go wrong are raised to the caller, and nothing is
    logged.  On an enabled store, an entry without a "Key" on any page the
    paginator yielded raises [KeyError]; with every key present, the
    exception that ends the pagination is raised as it is.  The items
    gathered before are lost either way. *)
Theorem s3_list_objects_raises (prefix : string) (w : World R)
    (pages : list Page) (failure : option Exn) (s : R) :
  s3_enabled cfg = true →
  paginate (S3_BUCKET cfg) prefix (remote w) = ((pages, failure), s) →
  (Exists (λ e, Key e = None) (listed pages) →
   s3_list_objects cfg prefix w
   = (Raised (OtherError "KeyError"),
      after_call w (Paginate (S3_BUCKET cfg) prefix) s))
  ∧ (Forall (λ e, is_Some (Key e)) (listed pages) →
     ∀ e, failure = Some e →
     s3_list_objects cfg prefix w
     = (Raised e, after_call w (Paginate (S3_BUCKET cfg) prefix) s)).
Proof.
  intros Hon Hpag. unfold s3_list_objects. rewrite Hon. cbn [negb].
  rewrite Hpag. split.
  - intros Hex. rewrite (append_pages_missing _ _ Hex). reflexivity.
  - intros Hkeys e ->.
    destruct (append_pages_matches pages [] Hkeys) as (items & -> & _).
    reflexivity.
Qed.

End ListingFailures.

(** ** The memoised client *)

Section Memo.

Context {H F : Type} `{!Boto3 H F}.
Variable cfg : Config.

Lemma s3_client_cached (st : ClientCache H F) handle :
  cache st = Some handle → _s3_client cfg st = (Returned handle, st).
Proof. unfold _s3_client. intros ->. reflexivity. Qed.

Lemma s3_client_stores (st st' : ClientCache H F) handle :
  _s3_client cfg st = (Returned handle, st') → cache st' = Some handle.
Proof.
  unfold _s3_client. destruct (cache st) as [h|] eqn:E.
  - intros [= <- <-]. exact E.
  - destruct (boto3_client _ _ _) as [[h|e] f]; intros [= <- <-]. reflexivity.
Qed.

(** X16: the client is built once.  After a call of [_s3_client] that
    returned a handle, any number of further calls return that same handle
    and leave the cache and the factory as they are; a call that raised
    cached nothing, so the next call builds again. *)
Theorem s3_client_built_once (st st' : ClientCache H F) :
  (∀ handle, _s3_client cfg st = (Returned handle, st') →
     ∀ n, call_times cfg n st' = (repeat (Returned handle) n, st'))
  ∧ (∀ e, _s3_client cfg st = (Raised e, st') →
       cache st' = None
       ∧ _s3_client cfg st'
         = (let '(r, f) := boto3_client (S3_ENDPOINT_URL cfg) (S3_REGION cfg)
                             (factory st') in
            match r with
            | Returned handle => (Returned handle, mkCache (Some handle) f)
            | Raised e' => (Raised e', mkCache None f)
            end)).
Proof.
  split.
  - intros handle Hcall n. apply s3_client_stores in Hcall.
    induction n as [|n IH]; [reflexivity|].
    cbn [call_times repeat]. rewrite (s3_client_cached _ _ Hcall), IH.
    reflexivity.
  - intros e Hcall.
    assert (Hc : cache st' = None).
    { unfold _s3_client in Hcall. destruct (cache st); [discriminate|].
      destruct (boto3_client _ _ _) as [[h|e'] f]; inversion Hcall.
      reflexivity. }
    split; [exact Hc|]. unfold _s3_client. rewrite Hc. reflexivity.
Qed.

End Memo.

(** ** Further runs on the in-memory clients *)

Lemma s3_enabled_of_environ_witness :
  s3_enabled (load_config "/" environ_flag) = true.
Proof.
  apply s3_enabled_of_environ. split.
  - exists "wiki-bucket". split; [vm_compute; reflexivity|discriminate].
  - right. right. exists "TRUE". split; [vm_compute; reflexivity|].
    vm_compute. apply list_elem_of_In. cbn. auto.
Defined.

Lemma mock_keeps_objects : keeps_objects (R:=Mock.Bucket).
Proof.
  intros bucket key body r r'. cbn. unfold Mock.store, Mock.fetch, Mock.answer.
  destruct (Mock.fault r) eqn:E; [discriminate|].
  intros [= <-]. cbn. rewrite lookup_insert_eq. eauto.
Qed.

Lemma wrappers_that_return_witness :
  returns (s3_read_json (J:=string) cfg_s3 "deepwiki/a" w_down)
  ∧ returns (s3_object_exists cfg_s3 "deepwiki/a" w_denied)
  ∧ returns (ensure_local_file cfg_s3 "/srv/cache/a.json" "deepwiki/a" w_denied).
Proof.
  destruct (wrappers_that_return (J:=string) cfg_s3 w_down) as (Hread & _).
  destruct (wrappers_that_return (J:=string) cfg_s3 w_denied)
    as (_ & _ & _ & _ & _ & _ & Hexists & Hensure).
  split; [apply Hread|]. split.
  - apply Hexists. intros name s. vm_compute. discriminate.
  - apply Hensure. intros name s. vm_compute. discriminate.
Defined.

Lemma wrappers_call_once_witness :
  let w' := snd (ensure_local_file cfg_s3 "/srv/cache/a.json" "deepwiki/a"
                   w_fresh) in
  calls_at_most cfg_s3 2 w_fresh w' ∧ length (calls w') = 2.
Proof.
  intros w'. split; [|vm_compute; reflexivity]. subst w'.
  destruct (ensure_local_file cfg_s3 "/srv/cache/a.json" "deepwiki/a" w_fresh)
    as [r w'] eqn:E.
  eapply (wrappers_call_once (J:=string) cfg_s3 w_fresh w'). exact E.
Defined.

Lemma wrappers_log_discipline_witness :
  let w' := snd (s3_delete_object cfg_s3 "deepwiki/a" w_denied) in
  logs_at_most_one "deepwiki/a" w_denied w'
    (fst (s3_delete_object cfg_s3 "deepwiki/a" w_denied) = Returned true)
  ∧ length (log w') = 1.
Proof.
  intros w'. split; [|vm_compute; reflexivity]. subst w'.
  destruct (s3_delete_object cfg_s3 "deepwiki/a" w_denied) as [r w'] eqn:E.
  cbn [fst].
  destruct (wrappers_log_discipline (J:=string) cfg_s3 w_denied w')
    as (_ & _ & _ & _ & _ & Hdelete & _).
  apply (Hdelete _ _ E).
Defined.

Lemma wrappers_leave_files_witness :
  fs (snd (s3_upload_file cfg_s3 "/srv/cache/a.json" "deepwiki/b" w_cached))
  = fs w_cached.
Proof.
  destruct (s3_upload_file cfg_s3 "/srv/cache/a.json" "deepwiki/b" w_cached)
    as [r w'] eqn:E.
  destruct (wrappers_leave_files (J:=string) cfg_s3 w_cached w')
    as (_ & _ & _ & Hupload & _).
  apply (Hupload _ _ _ E).
Defined.

Lemma success_means_done_witness :
  ∃ content s,
    download_object (S3_BUCKET cfg_s3) "deepwiki/a" (remote w_fresh)
    = (Returned content, s)
    ∧ fs (snd (s3_download_file cfg_s3 "deepwiki/a" "/srv/cache/a.json"
                 w_fresh))
      !! "/srv/cache/a.json" = Some (File content).
Proof.
  destruct (s3_download_file cfg_s3 "deepwiki/a" "/srv/cache/a.json" w_fresh)
    as [r w'] eqn:E.
  assert (Hr : r = Returned true).
  { apply (f_equal fst) in E. vm_compute in E. congruence. }
  subst r.
  destruct (success_means_done (J:=string) cfg_s3 w_fresh w')
    as (_ & _ & _ & Hdown & _).
  destruct (Hdown _ _ E) as (_ & content & s & Hget & Hfile). eauto.
Defined.

Lemma ensure_local_file_settles_witness :
  let w' := snd (ensure_local_file cfg_s3 "/srv/cache/a.json" "deepwiki/a"
                   w_fresh) in
  OsPath.exists_ (fs w_fresh) "/srv/cache/a.json" = false
  ∧ OsPath.exists_ (fs w') "/srv/cache/a.json" = true
  ∧ ensure_local_file cfg_s3 "/srv/cache/a.json" "deepwiki/zzz" w'
    = (Returned true, w').
Proof.
  intros w'. split; [vm_compute; reflexivity|]. subst w'.
  destruct (ensure_local_file cfg_s3 "/srv/cache/a.json" "deepwiki/a" w_fresh)
    as [r w'] eqn:E.
  assert (Hr : r = Returned true).
  { apply (f_equal fst) in E. vm_compute in E. congruence. }
  subst r.
  destruct (ensure_local_file_settles cfg_s3 _ _ _ _ E) as [Hpath Hagain].
  split; [exact Hpath|apply Hagain].
Defined.

Lemma s3_read_json_cases_witness :
  s3_read_json (J:=string) cfg_s3 "deepwiki/a" w_fresh
  = (Returned (Some "{}"),
     after_call w_fresh (GetObject (Some "wiki-bucket") "deepwiki/a")
       (remote w_fresh))
  ∧ s3_read_json (J:=string) cfg_s3 "deepwiki/b" w_fresh
    = (Returned None,
       after_call w_fresh (GetObject (Some "wiki-bucket") "deepwiki/b")
         (remote w_fresh)).
Proof.
  destruct (s3_read_json_cases (J:=string) cfg_s3 "deepwiki/a" w_fresh eq_refl)
    as (Hparsed & _).
  destruct (s3_read_json_cases (J:=string) cfg_s3 "deepwiki/b" w_fresh eq_refl)
    as (_ & Hmissing & _).
  split.
  - apply (Hparsed "{}"); vm_compute; reflexivity.
  - apply (Hmissing (Some "NoSuchKey")); vm_compute; reflexivity.
Defined.

Lemma s3_write_and_delete_cases_witness :
  fst (s3_write_json cfg_s3 "deepwiki/b" "[1]" w_fresh) = Returned true
  ∧ fst (s3_delete_object cfg_s3 "deepwiki/a" w_denied) = Returned false.
Proof.
  destruct (s3_write_and_delete_cases (J:=string) cfg_s3 "deepwiki/b" w_fresh
              eq_refl) as (_ & Hput & _).
  destruct (s3_write_and_delete_cases (J:=string) cfg_s3 "deepwiki/a" w_denied
              eq_refl) as (_ & _ & _ & _ & Hdel).
  split.
  - erewrite (Hput "[1]" "[1]"); [reflexivity|reflexivity|vm_compute; reflexivity].
  - erewrite Hdel; [reflexivity|vm_compute; reflexivity].
Defined.

Lemma write_then_read_witness :
  ∃ w2,
    s3_read_json cfg_s3 "deepwiki/b"
      (snd (s3_write_json cfg_s3 "deepwiki/b" "[1]" w_fresh))
    = (Returned (Some "[1]"), w2).
Proof.
  destruct (s3_write_json cfg_s3 "deepwiki/b" "[1]" w_fresh) as [r w1] eqn:E.
  assert (Hr : r = Returned true).
  { apply (f_equal fst) in E. vm_compute in E. congruence. }
  subst r.
  destruct (write_then_read cfg_s3 "deepwiki/b" "[1]" w_fresh w1
              mock_keeps_objects) as (w2 & Hread & _).
  - intros payload [= <-]. reflexivity.
  - exact E.
  - exists w2. exact Hread.
Defined.

Lemma s3_list_objects_raises_witness :
  fst (s3_list_objects cfg_s3 "deepwiki/" (Scripted.world pages_with_gap None))
  = Raised (OtherError "KeyError")
  ∧ fst (s3_list_objects cfg_s3 "deepwiki/"
           (Scripted.world [] (Some (OtherError "ReadTimeoutError"))))
    = Raised (OtherError "ReadTimeoutError").
Proof.
  split.
  - destruct (s3_list_objects_raises cfg_s3 "deepwiki/"
                (Scripted.world pages_with_gap None) pages_with_gap None
                (remote (Scripted.world pages_with_gap None)))
      as [Hgap _]; [reflexivity..|].
    rewrite Hgap; [reflexivity|].
    vm_compute. apply Exists_cons_tl, Exists_cons_hd. reflexivity.
  - destruct (s3_list_objects_raises cfg_s3 "deepwiki/"
                (Scripted.world [] (Some (OtherError "ReadTimeoutError")))
                [] (Some (OtherError "ReadTimeoutError"))
                (remote (Scripted.world [] (Some (OtherError "ReadTimeoutError")))))
      as [_ Hend]; [reflexivity..|].
    rewrite (Hend (List.Forall_nil _) _ eq_refl). reflexivity.
Defined.

Lemma s3_client_built_once_witness :
  let start := mkCache None {| Flaky.failures_left := 1; Flaky.built := 0 |} in
  let st1 := snd (_s3_client cfg_s3 start) in
  let st2 := snd (_s3_client cfg_s3 st1) in
  cache st1 = None
  ∧ call_times cfg_s3 3 st2 = (repeat (Returned 0) 3, st2)
  ∧ Flaky.built (factory st2) = 1.
Proof.
  intros start st1 st2.
  destruct (s3_client_built_once cfg_s3 start st1) as [_ Hfail].
  destruct (s3_client_built_once cfg_s3 st1 st2) as [Hok _].
  split; [apply (Hfail (OtherError "NoRegionError")); reflexivity|].
  split; [apply (Hok 0); reflexivity|reflexivity].
Defined.

(** ** Files through the store, and native paths as segments *)

Section Transfer.

Context {R : Type} `{!S3Client R}.
Variable cfg : Config.

(** X17: a file comes back as it went.  On a service that sends back the
    file last uploaded under a key, when [s3_upload_file] of a local file
    returned true and a following [s3_download_file] of the same key to any
    destination returned true, the destination holds the content the source
    had. *)
Theorem upload_then_download (source destination key : string)
    (content : string) (w w1 w2 : World R) :
  keeps_uploads (R:=R) →
  fs w !! source = Some (File content) →
  s3_upload_file cfg source key w = (Returned true, w1) →
  s3_download_file cfg key destination w1 = (Returned true, w2) →
  fs w2 !! destination = Some (File content).
Proof.
  intros Hstore Hsrc Hup Hdown.
  apply s3_upload_file_true_inv in Hup as (_ & c & s & Hc & Hsent & ->).
  rewrite Hsrc in Hc. injection Hc as <-.
  apply s3_download_file_true_inv in Hdown as (_ & c' & s' & Hget & Hfile & _).
  destruct (Hstore _ _ _ _ _ Hsent) as [s'' Hget'].
  cbn in Hget. rewrite Hget' in Hget. injection Hget as <- _. exact Hfile.
Qed.

End Transfer.

Lemma mock_keeps_uploads : keeps_uploads (R:=Mock.Bucket).
Proof.
  intros bucket key body r r'. cbn. unfold Mock.store, Mock.fetch, Mock.answer.
  destruct (Mock.fault r) eqn:E; [discriminate|].
  intros [= <-]. cbn. rewrite lookup_insert_eq. eauto.
Qed.

Lemma upload_then_download_witness :
  let w1 := snd (s3_upload_file cfg_s3 "/srv/cache/a.json" "deepwiki/b"
                   w_cached) in
  let w2 := snd (s3_download_file cfg_s3 "deepwiki/b" "/tmp/copy/b.json" w1) in
  fs w2 !! "/tmp/copy/b.json" = Some (File "{}").
Proof.
  intros w1 w2.
  apply (upload_then_download cfg_s3 "/srv/cache/a.json" "/tmp/copy/b.json"
           "deepwiki/b" "{}" w_cached w1 w2 mock_keeps_uploads);
    vm_compute; reflexivity.
Defined.

Lemma replace_append old new a b :
  Py.replace old new (a +:+ b) = Py.replace old new a +:+ Py.replace old new b.
Proof.
  induction a as [|x a IH]; [reflexivity|].
  change (String x a +:+ b) with (String x (a +:+ b)).
  cbn [Py.replace]. rewrite IH. reflexivity.
Qed.

Lemma replace_join sep (parts : list string) :
  Forall (λ p, contains sep p = false) parts →
  Py.replace sep "/" (Py.join (String sep "") parts) = Py.join "/" parts.
Proof.
  induction 1 as [|p parts Hp Hparts IH]; [reflexivity|].
  destruct parts as [|q parts].
  - apply replace_fixed. left. exact Hp.
  - change (Py.join (String sep "") (p :: q :: parts))
      with (p +:+ String sep "" +:+ Py.join (String sep "") (q :: parts)).
    rewrite !replace_append, IH, (replace_fixed _ _ p (or_introl Hp)).
    cbn [Py.replace]. rewrite Ascii.eqb_refl. reflexivity.
Qed.

(** X18: a native relative path stands for its components.  For
    components that are not empty and hold neither a slash nor the platform
    separator, the path made by joining them with the platform separator,
    given as one segment, yields the same key as the components given one
    by one. *)
Theorem build_s3_key_native_path (cfg : Config) (parts : list string) :
  parts ≠ [] →
  Forall (plain_segment cfg) parts →
  build_s3_key cfg [Py.join (String (os_sep cfg) "") parts]
  = build_s3_key cfg parts.
Proof.
  intros Hne Hparts.
  assert (Htidy : Forall tidy parts).
  { eapply Forall_impl; [exact Hparts|]. apply plain_segment_tidy. }
  rewrite !build_s3_key_unfold. f_equal.
  rewrite (cleaned_fixed cfg parts).
  - unfold cleaned, clean_part. cbn [map List.filter].
    rewrite replace_join.
    + rewrite (strip_fixed _ (join_tidy _ Hne Htidy)).
      rewrite (join_truthy _ Hne Htidy). reflexivity.
    + eapply Forall_impl; [exact Hparts|]. intros p Hp. apply Hp.
  - eapply Forall_impl; [exact Hparts|]. intros p Hp.
    split; [apply (plain_segment_tidy cfg), Hp|left; apply Hp].
Qed.

Lemma build_s3_key_native_path_witness :
  build_s3_key (load_config "\" ∅) ["wikicache\owner\repo.json"]
  = "deepwiki/wikicache/owner/repo.json".
Proof.
  rewrite (build_s3_key_native_path (load_config "\" ∅)
             ["wikicache"; "owner"; "repo.json"]).
  - vm_compute. reflexivity.
  - discriminate.
  - repeat (constructor; [vm_compute; repeat split; reflexivity|]).
    constructor.
Defined.
